(** * arXiv analyzers: a shallow embedding of [arxiv_analyzer.py] and
    [arxiv_analyzer_gemini.py]

    The two classes [ArxivAnalyzer] and [ArxivAnalyzerGemini] are embedded
    method by method.  Paper dictionaries live in a store and are passed by
    reference, as Python passes them; the text-generation backends, which
    are not part of the repository, are parameters of the development. *)

From Stdlib Require Import Ascii String PrimFloat.
From stdpp Require Import base strings gmap list pretty.


(** ** Python values and the builtins the methods rely on *)

Module Py.

(** A character of a model string stands for one code point of a Python
  [str]; the code points below 256 are covered. *)

(** The values stored under the keys of a paper dictionary:
  [search_papers] stores [str] and lists of [str]. *)
Inductive value : Type :=
| VStr (s : string)
| VList (l : list string).

#[global] Instance value_eq_dec : EqDecision value.
Proof. solve_decision. Defined.

#[global] Instance value_inhabited : Inhabited value := populate (VStr EmptyString).

Definition nl : string := String "010"%char EmptyString.

(** [sep.join(items)] *)
Fixpoint join (sep : string) (items : list string) : string :=
match items with
| [] => EmptyString
| [x] => x
| x :: rest => x +:+ sep +:+ join sep rest
end.

(** Iterating over a [str] yields its characters as one-character strings. *)
Fixpoint chars (s : string) : list string :=
match s with
| EmptyString => []
| String c rest => String c EmptyString :: chars rest
end.

(** [s[:n]] on a [str] *)
Fixpoint str_take (n : nat) (s : string) : string :=
match n, s with
| S n', String c rest => String c (str_take n' rest)
| _, _ => EmptyString
end.

Fixpoint str_contains (c : ascii) (s : string) : bool :=
match s with
| EmptyString => false
| String d rest => if decide (c = d) then true else str_contains c rest
end.

Definition hex_digit (n : nat) : ascii :=
if (n <? 10)%nat then ascii_of_nat (48 + n) else ascii_of_nat (87 + n).

(** Code points that [repr] writes as a [\xNN] escape. *)
Definition unprintable (c : ascii) : bool :=
let n := nat_of_ascii c in
((n <? 32) || (n =? 127) || ((128 <=? n) && (n <=? 160)) || (n =? 173))%nat.

Definition repr_char (quote c : ascii) : string :=
if decide (c = "\"%char) then "\\"
else if decide (c = quote) then String "\"%char (String quote EmptyString)
else if decide (c = "009"%char) then "\t"
else if decide (c = "010"%char) then "\n"
else if decide (c = "013"%char) then "\r"
else if unprintable c then
  let n := nat_of_ascii c in
  "\x" +:+ String (hex_digit (n / 16)%nat) (String (hex_digit (n mod 16)%nat) EmptyString)
else String c EmptyString.

Fixpoint repr_body (quote : ascii) (s : string) : string :=
match s with
| EmptyString => EmptyString
| String c rest => repr_char quote c +:+ repr_body quote rest
end.

(** [repr(s)] for a [str]: single quotes, unless the text has a single
  quote and no double quote. *)
Definition repr (s : string) : string :=
let quote := if str_contains "'"%char s && negb (str_contains "034"%char s)
             then "034"%char else "'"%char in
String quote (repr_body quote s +:+ String quote EmptyString).

(** [str(v)], which is also what an f-string field [{v}] renders. *)
Definition str (v : value) : string :=
match v with
| VStr s => s
| VList l => "[" +:+ join ", " (repr <$> l) +:+ "]"
end.

(** The items [sep.join(v)] iterates over. *)
Definition iter (v : value) : list string :=
match v with
| VStr s => chars s
| VList l => l
end.

(** [v[:n]] *)
Definition slice_to (n : nat) (v : value) : value :=
match v with
| VStr s => VStr (str_take n s)
| VList l => VList (take n l)
end.

(** [len(xs)] and the numbers of [enumerate(xs, 1)] are rendered by [str]
  on a non-negative [int]. *)
Definition str_nat (n : nat) : string := pretty n.

Definition str_int (z : Z) : string := pretty z.

(** The exceptions that occur: [KeyError] from a missing dictionary key,
  [ValueError] and [IndexError] raised by the methods themselves, and
  whatever instance of [Exception] a backend raises, kept by its
  message. *)
Inductive exn : Type :=
| KeyError (key : string)
| ValueError (msg : string)
| IndexError (msg : string)
| BackendError (msg : string).

#[global] Instance exn_eq_dec : EqDecision exn.
Proof. solve_decision. Defined.

(** [str(e)]: a [KeyError] shows the [repr] of its key. *)
Definition exn_str (e : exn) : string :=
match e with
| KeyError k => repr k
| ValueError m | IndexError m | BackendError m => m
end.

Inductive result (A : Type) : Type :=
| Ok (a : A)
| Raise (e : exn).
Arguments Ok {A} a.
Arguments Raise {A} e.

End Py.

Import Py.

(** ** The store and the monad of a method body *)

Definition ref := nat.

Abbreviation dict := (gmap string value).

Section Runtime.

Context {World : Type}.

(** The store of dictionary objects, the state of the outside world that
    a backend call may read and change, and what was printed. *)
Record state : Type := State {
  heap : list dict;
  world : World;
  stdout : list string
}.

Definition M (A : Type) : Type := state → result A * state.

Definition ret {A} (a : A) : M A := λ s, (Ok a, s).

Definition raise {A} (e : exn) : M A := λ s, (Raise e, s).

Definition bind {A B} (m : M A) (k : A → M B) : M B :=
  λ s, match m s with
       | (Ok a, s') => k a s'
       | (Raise e, s') => (Raise e, s')
       end.

(** [try: body / except Exception as e: handler]: what the body did to
    the state before it raised stays done. *)
Definition try_except {A} (body : M A) (handler : exn → M A) : M A :=
  λ s, match body s with
       | (Ok a, s') => (Ok a, s')
       | (Raise e, s') => handler e s'
       end.

(** The dictionary a reference points to.  The references a method is
    handed are those of objects in the store; one that is not reads as the
    empty dictionary, which only keeps the function total. *)
Definition deref (s : state) (p : ref) : dict := heap s !!! p.

(** [p[key]] *)
Definition getitem (p : ref) (key : string) : M value :=
  λ s, match deref s p !! key with
       | Some v => (Ok v, s)
       | None => (Raise (KeyError key), s)
       end.

(** [p.copy()]: a new dictionary object with the same items. *)
Definition copy (p : ref) : M ref :=
  λ s, (Ok (length (heap s)),
        State (heap s ++ [deref s p]) (world s) (stdout s)).

(** [p[key] = v] *)
Definition setitem (p : ref) (key : string) (v : value) : M unit :=
  λ s, (Ok tt,
        State (<[p := <[key := v]> (deref s p)]> (heap s)) (world s) (stdout s)).

(** [print(line)] *)
Definition print (line : string) : M unit :=
  λ s, (Ok tt, State (heap s) (world s) (stdout s ++ [line])).

(** A call into a backend: it sees and changes the world only. *)
Definition backend {A} (call : World → result A * World) : M A :=
  λ s, let '(r, w) := call (world s) in (r, State (heap s) w (stdout s)).

(** [o or other]: [None] and the empty [str] count as false, and then,
    only then, [other] is evaluated. *)
Definition or_else (o : option string) (other : M string) : M string :=
  match o with
  | Some c => if decide (c = EmptyString) then other else ret c
  | None => other
  end.

(** [d[key]] on a dictionary held in a local variable. *)
Definition lookup_local {A} (d : gmap string A) (key : string) : M A :=
  match d !! key with
  | Some v => ret v
  | None => raise (KeyError key)
  end.

End Runtime.

Arguments state : clear implicits.
Arguments M : clear implicits.

Notation "'let!' x ':=' m 'in' k" := (bind m (λ x, k))
  (at level 10, x binder, m at level 100, k at level 200,
   format "'[v' 'let!'  x  ':='  m  'in' '/' k ']'").

(** ** Prompt rendering

    The lines that render the prompts are the same text in the two files
    ([analyze_paper] up to the API call, and [compare_papers] likewise),
    so they are embedded once. *)

Section Prompts.

Context {World : Type}.

Definition paper_content (paper : ref) : M World string :=
  let! title := getitem paper "title" in
  let! authors := getitem paper "authors" in
  let! published := getitem paper "published" in
  let! categories := getitem paper "categories" in
  let! summary := getitem paper "summary" in
  ret ("
Title: " +:+ str title +:+ "

Authors: " +:+ join ", " (iter authors) +:+ "

Published: " +:+ str published +:+ "

Categories: " +:+ join ", " (iter categories) +:+ "

Abstract:
" +:+ str summary +:+ "
").

Definition prompts : gmap string string :=
  list_to_map [
    ("summary", "Please provide a concise summary of this paper, highlighting the main contributions and findings.");
    ("key_findings", "What are the key findings and contributions of this paper? List them clearly.");
    ("methodology", "Analyze the methodology used in this paper. What approaches did the authors take?");
    ("critique", "Provide a balanced critique of this paper, discussing both strengths and potential limitations.")
  ].

(** [custom_prompt or prompts.get(analysis_type, prompts["summary"])] *)
Definition analysis_prompt (analysis_type : string)
    (custom_prompt : option string) : M World string :=
  or_else custom_prompt
    (let! fallback := lookup_local prompts "summary" in
     ret (default fallback (prompts !! analysis_type))).

Definition full_prompt (paper : ref) (analysis_type : string)
    (custom_prompt : option string) : M World string :=
  let! paper_content := paper_content paper in
  let! analysis_prompt := analysis_prompt analysis_type custom_prompt in
  ret (paper_content +:+ nl +:+ nl +:+ analysis_prompt).

(** The loop of [compare_papers] over [enumerate(papers, 1)]. *)
Fixpoint papers_text_loop (papers : list ref) (i : nat)
    (papers_text : string) : M World string :=
  match papers with
  | [] => ret papers_text
  | paper :: rest =>
      let! title := getitem paper "title" in
      let! authors := getitem paper "authors" in
      let! summary := getitem paper "summary" in
      papers_text_loop rest (S i) (papers_text +:+ "
Paper " +:+ str_nat i +:+ ":
Title: " +:+ str title +:+ "
Authors: " +:+ join ", " (iter authors) +:+ "
Abstract: " +:+ str summary +:+ "

---
")
  end.

(** [compare_papers] up to the API call. *)
Definition compare_prompt (papers : list ref) : M World string :=
  if decide (length papers < 2) then
    raise (ValueError "Need at least 2 papers to compare")
  else
    let! papers_text := papers_text_loop papers 1 EmptyString in
    ret ("Here are " +:+ str_nat (length papers) +:+ " research papers. Please compare them by:

1. Identifying common themes and research directions
2. Highlighting key differences in approach or findings
3. Discussing how these papers relate to each other
4. Noting any complementary or contradictory findings

Papers:
" +:+ papers_text +:+ "

Please provide a comparative analysis:").

End Prompts.

(** ** [ArxivAnalyzerGemini] (arxiv_analyzer_gemini.py) *)

Module ArxivAnalyzerGemini.

Record generation_config : Type := GenerationConfig {
  temperature : float;
  top_p : float;
  top_k : Z;
  max_output_tokens : Z
}.

Section Methods.

Context {World : Type}.

(** [self.model.generate_content(prompt, generation_config=...)]
    followed by reading [.text] of the response: the generated text, or
    the exception the library raised. *)
Variable generate_content :
  string → option generation_config → World → result string * World.

Definition analyze_paper (paper : ref) (analysis_type : string)
    (custom_prompt : option string) (temperature : float) : M World string :=
  let! full_prompt := full_prompt paper analysis_type custom_prompt in
  let generation_config :=
    GenerationConfig temperature 0.95%float 40 2048 in
  backend (generate_content full_prompt (Some generation_config)).

(** The loop of [batch_analyze_papers] over [enumerate(papers, 1)];
    [total] is [len(papers)]. *)
Fixpoint batch_loop (papers : list ref) (i total : nat)
    (analysis_type : string) (temperature : float)
    (analyzed_papers : list ref) : M World (list ref) :=
  match papers with
  | [] => ret analyzed_papers
  | paper :: rest =>
      let! title := getitem paper "title" in
      let! _ := print ("Analyzing " +:+ str_nat i +:+ "/" +:+ str_nat total
                       +:+ ": " +:+ str (slice_to 60 title) +:+ "...") in
      let! analyzed_papers :=
        try_except
          (let! analysis := analyze_paper paper analysis_type None temperature in
           let! analyzed_paper := copy paper in
           let! _ := setitem analyzed_paper "analysis" (VStr analysis) in
           ret (analyzed_papers ++ [analyzed_paper]))
          (λ e,
           let! _ := print ("Error analyzing paper: " +:+ exn_str e) in
           let! analyzed_paper := copy paper in
           let! _ := setitem analyzed_paper "analysis"
                       (VStr ("Error: " +:+ exn_str e)) in
           ret (analyzed_papers ++ [analyzed_paper])) in
      batch_loop rest (S i) total analysis_type temperature analyzed_papers
  end.

Definition batch_analyze_papers (papers : list ref) (analysis_type : string)
    (temperature : float) : M World (list ref) :=
  batch_loop papers 1 (length papers) analysis_type temperature [].

Definition compare_papers (papers : list ref) (temperature : float)
    : M World string :=
  let! prompt := compare_prompt papers in
  let generation_config :=
    GenerationConfig temperature 0.95%float 40 3072 in
  backend (generate_content prompt (Some generation_config)).

(** The list comprehension of [extract_key_concepts]. *)
Fixpoint abstract_blocks (papers : list ref) : M World (list string) :=
  match papers with
  | [] => ret []
  | p :: rest =>
      let! title := getitem p "title" in
      let! summary := getitem p "summary" in
      let! blocks := abstract_blocks rest in
      ret (("Paper: " +:+ str title +:+ nl +:+ str summary) :: blocks)
  end.

Definition extract_key_concepts (papers : list ref) (max_concepts : Z)
    : M World string :=
  let! blocks := abstract_blocks papers in
  let abstracts := join (nl +:+ nl) blocks in
  let prompt := "Analyze these research paper abstracts and extract the "
    +:+ str_int max_concepts +:+ " most important 
technical concepts, methods, or themes. For each concept, provide a brief explanation.

Format your response as a numbered list:
1. Concept Name: Brief explanation
2. Concept Name: Brief explanation
...

Abstracts:
" +:+ abstracts +:+ "
" in
  backend (generate_content prompt None).

End Methods.

End ArxivAnalyzerGemini.

(** ** [ArxivAnalyzer] (arxiv_analyzer.py) *)

Module ArxivAnalyzer.

Record message_param : Type := MessageParam {
  role : string;
  content : string
}.

Section Methods.

Context {World : Type}.

(** [self.client.messages.create(model=..., max_tokens=..., messages=...)]:
    the texts of the content blocks of the returned message, or the
    exception the library raised. *)
Variable messages_create :
  string → Z → list message_param → World → result (list string) * World.

(** [message.content[0].text] *)
Definition first_text (blocks : list string) : M World string :=
  match blocks with
  | block :: _ => ret block
  | [] => raise (IndexError "list index out of range")
  end.

Definition analyze_paper (paper : ref) (analysis_type : string)
    (custom_prompt : option string) : M World string :=
  let! full_prompt := full_prompt paper analysis_type custom_prompt in
  let! message := backend (messages_create "claude-sonnet-4-20250514" 2000
                             [MessageParam "user" full_prompt]) in
  first_text message.

(** The loop of [batch_analyze_papers]: no exception is handled here. *)
Fixpoint batch_loop (papers : list ref) (analysis_type : string)
    (analyzed_papers : list ref) : M World (list ref) :=
  match papers with
  | [] => ret analyzed_papers
  | paper :: rest =>
      let! title := getitem paper "title" in
      let! _ := print ("Analyzing: " +:+ str (slice_to 60 title) +:+ "...") in
      let! analysis := analyze_paper paper analysis_type None in
      let! analyzed_paper := copy paper in
      let! _ := setitem analyzed_paper "analysis" (VStr analysis) in
      batch_loop rest analysis_type (analyzed_papers ++ [analyzed_paper])
  end.

Definition batch_analyze_papers (papers : list ref) (analysis_type : string)
    : M World (list ref) :=
  batch_loop papers analysis_type [].

Definition compare_papers (papers : list ref) : M World string :=
  let! prompt := compare_prompt papers in
  let! message := backend (messages_create "claude-sonnet-4-20250514" 3000
                             [MessageParam "user" prompt]) in
  first_text message.

End Methods.

End ArxivAnalyzer.

(** ** Vocabulary of the statements *)

(** [sub] occurs in [s]. *)
Definition infix_of (sub s : string) : Prop :=
  ∃ pre post, s = pre +:+ sub +:+ post.

(** The block that [compare_papers] renders for the paper numbered [i]. *)
Definition paper_block (i : nat) (title authors summary : value) : string :=
  "
Paper " +:+ str_nat i +:+ ":
Title: " +:+ str title +:+ "
Authors: " +:+ join ", " (iter authors) +:+ "
Abstract: " +:+ str summary +:+ "

---
".

(** The keys [compare_papers] reads are present in the paper at [p]. *)
Definition comparable {World} (s : state World) (p : ref) : Prop :=
  is_Some (deref s p !! "title") ∧ is_Some (deref s p !! "authors")
  ∧ is_Some (deref s p !! "summary").

(** The exception of the guard of [compare_papers]. *)
Definition insufficient_input : exn :=
  ValueError "Need at least 2 papers to compare".

(** The blocks of the papers numbered from [i] on, one after the other. *)
Fixpoint paper_blocks {World} (s : state World) (i : nat) (papers : list ref)
    : string :=
  match papers with
  | [] => EmptyString
  | p :: rest =>
      paper_block i (deref s p !!! "title") (deref s p !!! "authors")
        (deref s p !!! "summary") +:+ paper_blocks s (S i) rest
  end.

(** What a loop of [batch_analyze_papers] stores in the analysis field for
    the outcome [r] of [analyze_paper]. *)
Definition entry_text (r : result string) : string :=
  match r with
  | Ok text => text
  | Raise e => "Error: " +:+ exn_str e
  end.

(** The store of [s'] extends the store of [s]: every dictionary object of
    [s] is still there, with the same items. *)
Definition extends {World} (s s' : state World) : Prop :=
  ∃ new, heap s' = heap s ++ new.

Section GeminiTrace.

Context {World : Type}.
Variable generate_content :
  string → option ArxivAnalyzerGemini.generation_config → World
  → result string * World.

(** What analysing the paper at [p] yields in state [s]: the exception of
    the rendering, or else whatever the backend answers to the prompt. *)
Definition item_result (p : ref) (analysis_type : string) (temperature : float)
    (s : state World) : result string * World :=
  match fst (full_prompt p analysis_type None s) with
  | Ok prompt =>
      generate_content prompt
        (Some (ArxivAnalyzerGemini.GenerationConfig temperature 0.95%float 40 2048))
        (world s)
  | Raise e => (Raise e, world s)
  end.

(** The state after one round of the loop of
    [ArxivAnalyzerGemini.batch_analyze_papers] on a paper with a title. *)
Definition after_item (i total : nat) (analysis_type : string)
    (temperature : float) (p : ref) (s : state World) : state World :=
  let r := item_result p analysis_type temperature s in
  State (heap s ++ [<["analysis" := VStr (entry_text (fst r))]> (deref s p)])
        (snd r)
        ((stdout s ++ ["Analyzing " +:+ str_nat i +:+ "/" +:+ str_nat total
                         +:+ ": " +:+ str (slice_to 60 (deref s p !!! "title"))
                         +:+ "..."])
         ++ match fst r with
            | Ok _ => []
            | Raise e => ["Error analyzing paper: " +:+ exn_str e]
            end).

End GeminiTrace.

(** ** Sample inputs *)

Module Demo.

Definition paper_a : dict :=
  list_to_map [
    ("title", VStr "Attention Is All You Need");
    ("authors", VList ["A. Vaswani"; "N. Shazeer"]);
    ("summary", VStr "We propose the Transformer.");
    ("published", VStr "2017-06-12");
    ("updated", VStr "2017-12-06");
    ("arxiv_id", VStr "1706.03762v5");
    ("pdf_url", VStr "http://arxiv.org/pdf/1706.03762v5");
    ("categories", VList ["cs.CL"; "cs.LG"]);
    ("primary_category", VStr "cs.CL")
  ].

Definition paper_b : dict :=
  list_to_map [
    ("title", VStr "Deep Residual Learning");
    ("authors", VList ["K. He"]);
    ("summary", VStr "We present a residual learning framework.");
    ("published", VStr "2015-12-10");
    ("updated", VStr "2015-12-10");
    ("arxiv_id", VStr "1512.03385v1");
    ("pdf_url", VStr "http://arxiv.org/pdf/1512.03385v1");
    ("categories", VList ["cs.CV"]);
    ("primary_category", VStr "cs.CV")
  ].

Definition paper_c : dict :=
  list_to_map [
    ("title", VStr "Adam");
    ("authors", VList ["D. Kingma"; "J. Ba"]);
    ("summary", VStr "We introduce Adam.");
    ("published", VStr "2014-12-22");
    ("updated", VStr "2017-01-30");
    ("arxiv_id", VStr "1412.6980v9");
    ("pdf_url", VStr "http://arxiv.org/pdf/1412.6980v9");
    ("categories", VList ["cs.LG"]);
    ("primary_category", VStr "cs.LG")
  ].

(** The world of the sample backends is the number of calls made so
    far; the second call fails. *)
Definition answer (calls : nat) : result string :=
  if decide (calls = 1) then Raise (BackendError "quota exceeded")
  else Ok ("analysis #" +:+ str_nat calls).

Definition generate_content (prompt : string)
    (config : option ArxivAnalyzerGemini.generation_config) (calls : nat)
    : result string * nat :=
  (answer calls, S calls).

Definition messages_create (model : string) (max_tokens : Z)
    (messages : list ArxivAnalyzer.message_param) (calls : nat)
    : result (list string) * nat :=
  (match answer calls with Ok text => Ok [text] | Raise e => Raise e end,
   S calls).

(** Three papers in the store, no call made, nothing printed. *)
Definition start : state nat := State [paper_a; paper_b; paper_c] 0 [].

(** The same after one backend call. *)
Definition second : state nat := State [paper_a; paper_b; paper_c] 1 [].

(** Another store, for another backend, with [paper_a] at reference 1. *)
Definition elsewhere : state unit := State [paper_c; paper_a] tt ["noise"].

End Demo.

(** ** The other methods of the two classes *)

(** *** What the [arxiv] package hands over *)

Module Arxiv.

Inductive SortCriterion : Type :=
  | Relevance
  | LastUpdatedDate
  | SubmittedDate.

Record Author : Type := MkAuthor { name : string }.

(** A result of a search, with the attributes [search_papers] reads; the
    type of the two dates is left open, and the link to the PDF is taken
    to be a [str]. *)
Record Result (datetime : Type) : Type := MkResult {
  title : string;
  authors : list Author;
  summary : string;
  published : datetime;
  updated : datetime;
  entry_id : string;
  pdf_url : string;
  categories : list string;
  primary_category : string
}.

Arguments MkResult {datetime}.
Arguments title {datetime}.
Arguments authors {datetime}.
Arguments summary {datetime}.
Arguments published {datetime}.
Arguments updated {datetime}.
Arguments entry_id {datetime}.
Arguments pdf_url {datetime}.
Arguments categories {datetime}.
Arguments primary_category {datetime}.

End Arxiv.

(** [s.split(sep)] for a separator of one character. *)
Fixpoint split (sep : ascii) (s : string) : list string :=
  match s with
  | EmptyString => [EmptyString]
  | String c rest =>
      if decide (c = sep) then EmptyString :: split sep rest
      else match split sep rest with
           | segment :: segments => String c segment :: segments
           | [] => [String c EmptyString]
           end
  end.

(** *** [search_papers] (the same text in the two files) *)

Section Search.

Context {World datetime : Type}.

(** [d.strftime(format)] *)
Variable strftime : datetime → string → string.

(** [arxiv.Search(query=..., max_results=..., sort_by=...).results()]: the
    results the generator yields, and the exception that ended it if one
    did. *)
Variable search_results :
  string → Z → Arxiv.SortCriterion → World
  → (list (Arxiv.Result datetime) * option exn) * World.

(** [xs[-1]] *)
Definition last_item (xs : list string) : M World string :=
  match last xs with
  | Some x => ret x
  | None => raise (IndexError "list index out of range")
  end.

(** [entry_id.split("/")[-1]] *)
Definition arxiv_id_of (entry_id : string) : M World string :=
  last_item (split "/"%char entry_id).

(** A dictionary display [{...}]: a new object in the store. *)
Definition new_dict (items : list (string * value)) : M World ref :=
  λ s, (Ok (length (heap s)),
        State (heap s ++ [list_to_map items]) (world s) (stdout s)).

(** The loop of [search_papers] over the results. *)
Fixpoint search_loop (results : list (Arxiv.Result datetime))
    (papers : list ref) : M World (list ref) :=
  match results with
  | [] => ret papers
  | result :: rest =>
      let! arxiv_id := arxiv_id_of (Arxiv.entry_id result) in
      let! paper := new_dict [
        ("title", VStr (Arxiv.title result));
        ("authors", VList (Arxiv.name <$> Arxiv.authors result));
        ("summary", VStr (Arxiv.summary result));
        ("published", VStr (strftime (Arxiv.published result) "%Y-%m-%d"));
        ("updated", VStr (strftime (Arxiv.updated result) "%Y-%m-%d"));
        ("arxiv_id", VStr arxiv_id);
        ("pdf_url", VStr (Arxiv.pdf_url result));
        ("categories", VList (Arxiv.categories result));
        ("primary_category", VStr (Arxiv.primary_category result))
      ] in
      search_loop rest (papers ++ [paper])
  end.

(** The loop runs over what the generator yields; the exception that ends
    the generator, if any, leaves [search_papers] after that. *)
Definition search_papers (query : string) (max_results : Z)
    (sort_by : Arxiv.SortCriterion) : M World (list ref) :=
  let! yielded :=
    backend (λ w, let '(y, w') := search_results query max_results sort_by w in
                  (Ok y, w')) in
  let! papers := search_loop (fst yielded) [] in
  match snd yielded with
  | Some e => raise e
  | None => ret papers
  end.

End Search.

(** *** [generate_research_questions] of [ArxivAnalyzerGemini] *)

Section Questions.

Context {World : Type}.

Variable generate_content :
  string → option ArxivAnalyzerGemini.generation_config → World
  → result string * World.

(** The list comprehension of [generate_research_questions]. *)
Fixpoint question_blocks (papers : list ref) : M World (list string) :=
  match papers with
  | [] => ret []
  | p :: rest =>
      let! title := getitem p "title" in
      let! summary := getitem p "summary" in
      let! blocks := question_blocks rest in
      ret (("Title: " +:+ str title +:+ nl +:+ "Abstract: " +:+ str summary)
           :: blocks)
  end.

Definition generate_research_questions (papers : list ref) (num_questions : Z)
    : M World string :=
  let! blocks := question_blocks papers in
  let papers_summary := join (nl +:+ nl) blocks in
  let prompt := "Based on these research papers, generate "
    +:+ str_int num_questions +:+ " interesting and 
unexplored research questions that could advance this field. Focus on gaps, contradictions, 
or natural extensions of the current work.

Papers:
" +:+ papers_summary +:+ "

Generate " +:+ str_int num_questions +:+ " research questions:" in
  backend (generate_content prompt None).

End Questions.

(** *** The constructors *)

Section Constructors.

Context {World Model Client : Type}.

(** [os.getenv(name)]: the environment is part of the world and is only
    read. *)
Variable getenv : string → World → option string.

(** [genai.configure(api_key=...)] *)
Variable configure : string → World → result unit * World.

(** [genai.GenerativeModel(name)] *)
Variable GenerativeModel : string → World → result Model * World.

(** [anthropic.Anthropic(api_key=...)] *)
Variable Anthropic : string → World → result Client * World.

(** [o or other] where [other] may be [None] too. *)
Definition or_option (o : option string) (other : M World (option string))
    : M World (option string) :=
  match o with
  | Some c => if decide (c = EmptyString) then other else ret (Some c)
  | None => other
  end.

(** [if not key: raise error], and the key when it is a non-empty [str]. *)
Definition require_key (key : option string) (error : exn) : M World string :=
  match key with
  | Some c => if decide (c = EmptyString) then raise error else ret c
  | None => raise error
  end.

(** [ArxivAnalyzerGemini.__init__]: the fields [api_key] and [model] of the
    new object. *)
Definition gemini_init (api_key : option string) : M World (string * Model) :=
  let! key := or_option api_key
                (backend (λ w, (Ok (getenv "GOOGLE_API_KEY" w), w))) in
  let! key := require_key key
                (ValueError "GOOGLE_API_KEY must be set in environment or passed to constructor") in
  let! _ := backend (configure key) in
  let! model := backend (GenerativeModel "gemini-1.5-pro") in
  ret (key, model).

(** [ArxivAnalyzer.__init__]: the fields [api_key] and [client] of the new
    object. *)
Definition claude_init (api_key : option string) : M World (string * Client) :=
  let! key := or_option api_key
                (backend (λ w, (Ok (getenv "ANTHROPIC_API_KEY" w), w))) in
  let! key := require_key key
                (ValueError "ANTHROPIC_API_KEY must be set in environment or passed to constructor") in
  let! client := backend (Anthropic key) in
  ret (key, client).

End Constructors.

(** *** Vocabulary of the further statements *)

(** The keys [analyze_paper] reads, in the order in which it reads them. *)
Definition rendered_keys : list string :=
  ["title"; "authors"; "published"; "categories"; "summary"].

(** The text before the last segment: every segment but the last, each
    followed by the separator. *)
Fixpoint segments_text (sep : ascii) (segments : list string) : string :=
  match segments with
  | [] => EmptyString
  | x :: rest => x +:+ String sep (segments_text sep rest)
  end.

(** The items of the paper that [search_papers] makes of a result. *)
Definition searched_paper {datetime} (strftime : datetime → string → string)
    (r : Arxiv.Result datetime) : dict :=
  list_to_map [
    ("title", VStr (Arxiv.title r));
    ("authors", VList (Arxiv.name <$> Arxiv.authors r));
    ("summary", VStr (Arxiv.summary r));
    ("published", VStr (strftime (Arxiv.published r) "%Y-%m-%d"));
    ("updated", VStr (strftime (Arxiv.updated r) "%Y-%m-%d"));
    ("arxiv_id", VStr (default EmptyString (last (split "/"%char (Arxiv.entry_id r)))));
    ("pdf_url", VStr (Arxiv.pdf_url r));
    ("categories", VList (Arxiv.categories r));
    ("primary_category", VStr (Arxiv.primary_category r))
  ].

(** A key that counts: a [str] that is not empty. *)
Definition usable_key (o : option string) : option string :=
  match o with
  | Some c => if decide (c = EmptyString) then None else Some c
  | None => None
  end.

(** The progress line of the batch of [ArxivAnalyzerGemini]. *)
Definition progress_line (i total : nat) (title : value) : string :=
  "Analyzing " +:+ str_nat i +:+ "/" +:+ str_nat total +:+ ": "
  +:+ str (slice_to 60 title) +:+ "...".

(** *** Sample search results *)

Module DemoSearch.

(** Dates as year, month and day, with four and two digits. *)
Definition two_digits (n : nat) : string :=
  if (n <? 10)%nat then "0" +:+ str_nat n else str_nat n.

Definition strftime (d : nat * nat * nat) (format : string) : string :=
  let '(y, m, day) := d in
  str_nat y +:+ "-" +:+ two_digits m +:+ "-" +:+ two_digits day.

Definition result_a : Arxiv.Result (nat * nat * nat) :=
  Arxiv.MkResult "Attention Is All You Need"
    [Arxiv.MkAuthor "A. Vaswani"; Arxiv.MkAuthor "N. Shazeer"]
    "We propose the Transformer." (2017, 6, 12) (2017, 12, 6)
    "http://arxiv.org/abs/1706.03762v5" "http://arxiv.org/pdf/1706.03762v5"
    ["cs.CL"; "cs.LG"] "cs.CL".

Definition result_b : Arxiv.Result (nat * nat * nat) :=
  Arxiv.MkResult "Deep Residual Learning" [Arxiv.MkAuthor "K. He"]
    "We present a residual learning framework." (2015, 12, 10) (2015, 12, 10)
    "http://arxiv.org/abs/1512.03385v1" "http://arxiv.org/pdf/1512.03385v1"
    ["cs.CV"] "cs.CV".

(** A search that yields the two results and ends well. *)
Definition search_results (query : string) (max_results : Z)
    (sort_by : Arxiv.SortCriterion) (calls : nat)
    : (list (Arxiv.Result (nat * nat * nat)) * option exn) * nat :=
  (([result_a; result_b], None), calls).

(** An empty store. *)
Definition empty : state nat := State [] 0 [].

(** A paper without its dates, and one as analysed by a batch. *)
Definition undated : dict :=
  delete "published" (delete "summary" Demo.paper_a).

Definition analysed : dict :=
  <["analysis" := VStr "analysis #0"]> Demo.paper_a.

Definition shelf : state nat :=
  State [Demo.paper_a; undated; analysed] 0 [].

(** An environment with the key of one backend only. *)
Definition getenv (name : string) (calls : nat) : option string :=
  if decide (name = "GOOGLE_API_KEY") then Some "env-key" else None.

Definition configure (key : string) (calls : nat) : result unit * nat :=
  (Ok tt, S calls).

Definition GenerativeModel (name : string) (calls : nat) : result string * nat :=
  (Ok name, S calls).

Definition Anthropic (key : string) (calls : nat) : result string * nat :=
  (Ok key, S calls).

End DemoSearch.

(** * Properties *)

Lemma str_app_assoc (a b c : string) : (a +:+ b) +:+ c = a +:+ b +:+ c.
Proof.
  induction a as [|x a IH]; [done|].
  change (String x ((a +:+ b) +:+ c) = String x (a +:+ b +:+ c)).
  by rewrite IH.
Qed.

Lemma str_app_nil_r (a : string) : a +:+ EmptyString = a.
Proof.
  induction a as [|x a IH]; [done|].
  change (String x (a +:+ EmptyString) = String x a).
  by rewrite IH.
Qed.

Lemma infix_of_app_l sub a b : infix_of sub a → infix_of sub (a +:+ b).
Proof.
  intros (pre & post & ->). exists pre, (post +:+ b).
  by rewrite !str_app_assoc.
Qed.

Lemma infix_of_app_r sub a b : infix_of sub b → infix_of sub (a +:+ b).
Proof.
  intros (pre & post & ->). exists (a +:+ pre), post.
  by rewrite !str_app_assoc.
Qed.

Section PromptFacts.

Context {World : Type}.
Implicit Types (s : state World) (p paper : ref) (papers : list ref).

Lemma prompts_keys (k : string) :
  k ∉ ["summary"; "key_findings"; "methodology"; "critique"] →
  prompts !! k = None.
Proof.
  intros Hk. apply not_elem_of_list_to_map_1. simpl. exact Hk.
Qed.

Lemma paper_content_state p s : snd (paper_content p s) = s.
Proof.
  unfold paper_content, bind, getitem.
  repeat (destruct (deref s p !! _); simpl; [|done]). done.
Qed.

Lemma analysis_prompt_custom k c s :
  c ≠ EmptyString → analysis_prompt k (Some c) s = (Ok c, s).
Proof. intros Hc. unfold analysis_prompt, or_else. by destruct (decide _). Qed.

Lemma analysis_prompt_template k c s :
  c = None ∨ c = Some EmptyString →
  analysis_prompt k c s =
    (Ok (default "Please provide a concise summary of this paper, highlighting the main contributions and findings."
           (prompts !! k)), s).
Proof. by intros [-> | ->]. Qed.

Lemma analysis_prompt_state k c s : snd (analysis_prompt k c s) = s.
Proof.
  destruct c as [c|]; [destruct (decide (c = EmptyString)) as [->|Hc]|].
  - by rewrite analysis_prompt_template by auto.
  - by rewrite analysis_prompt_custom.
  - by rewrite analysis_prompt_template by auto.
Qed.

Lemma full_prompt_state p k c s : snd (full_prompt p k c s) = s.
Proof.
  unfold full_prompt, bind.
  pose proof (paper_content_state p s) as H1.
  destruct (paper_content p s) as [[content|e] s1]; simpl in *; subst; [|done].
  pose proof (analysis_prompt_state k c s) as H2.
  by destruct (analysis_prompt k c s) as [[instruction|e] s2]; simpl in *; subst.
Qed.

End PromptFacts.

(** The rendering does not depend on which backend the state belongs to. *)
Lemma analysis_prompt_fst {W1 W2} k c (s : state W1) (s2 : state W2) :
  fst (analysis_prompt k c s) = fst (analysis_prompt k c s2).
Proof.
    destruct c as [c|]; [destruct (decide (c = EmptyString)) as [->|Hc]|].
    - by rewrite !analysis_prompt_template by auto.
    - by rewrite !analysis_prompt_custom.
    - by rewrite !analysis_prompt_template by auto.
  Qed.

Lemma full_prompt_fst {W1 W2} p p2 k c (s : state W1) (s2 : state W2) :
  deref s p = deref s2 p2 →
  fst (full_prompt p k c s) = fst (full_prompt p2 k c s2).
Proof.
    intros Hd. unfold full_prompt, bind.
    assert (paper_content p s = (fst (paper_content p2 s2), s)) as ->.
    { unfold paper_content, bind, getitem.
      repeat (rewrite Hd; destruct (deref s2 p2 !! _); simpl; [|done]). done. }
    pose proof (paper_content_state p2 s2) as H2.
    destruct (paper_content p2 s2) as [[content|e] s3]; simpl in *; subst; [|done].
    pose proof (analysis_prompt_fst k c s s2) as H3.
    destruct (analysis_prompt k c s) as [[i1|e1] ?],
             (analysis_prompt k c s2) as [[i2|e2] ?]; simpl in *; congruence.
  Qed.

(** *** The loop of [compare_papers] *)

Section CompareFacts.

Context {World : Type}.
Implicit Types (s : state World) (p paper : ref) (papers : list ref).

Lemma papers_text_loop_state papers : ∀ i acc s,
  snd (papers_text_loop papers i acc s) = s.
Proof.
  induction papers as [|p rest IH]; intros i acc s; [done|].
  simpl. unfold bind, getitem.
  repeat (destruct (deref s p !! _); simpl; [|done]). apply IH.
Qed.

Lemma papers_text_loop_ok papers : ∀ i acc s,
  Forall (comparable s) papers →
  papers_text_loop papers i acc s = (Ok (acc +:+ paper_blocks s i papers), s).
Proof.
  induction papers as [|p rest IH]; intros i acc s Hall.
  - simpl. by rewrite str_app_nil_r.
  - apply Forall_cons in Hall as [([t Ht] & [a Ha] & [m Hm]) Hrest].
    simpl. unfold bind at 1 2 3, getitem. rewrite Ht, Ha, Hm.
    rewrite IH by done. rewrite str_app_assoc.
    by rewrite !lookup_total_alt, Ht, Ha, Hm.
Qed.

Lemma papers_text_loop_raises papers : ∀ i acc s e,
  fst (papers_text_loop papers i acc s) = Raise e → ∃ k, e = KeyError k.
Proof.
  induction papers as [|p rest IH]; intros i acc s e; [done|].
  simpl. unfold bind at 1 2 3, getitem.
  repeat (destruct (deref s p !! _); simpl; [|intros [= <-]; eauto]).
  apply IH.
Qed.

Lemma paper_blocks_infix papers : ∀ i j p s,
  papers !! j = Some p →
  infix_of (paper_block (i + j) (deref s p !!! "title")
              (deref s p !!! "authors") (deref s p !!! "summary"))
           (paper_blocks s i papers).
Proof.
  induction papers as [|q rest IH]; intros i j p s Hj; [done|].
  destruct j as [|j]; simpl in *.
  - injection Hj as ->. rewrite Nat.add_0_r.
    exists EmptyString, (paper_blocks s (S i) rest). done.
  - apply infix_of_app_r. replace (i + S j) with (S i + j) by lia. by apply IH.
Qed.

Lemma compare_prompt_short papers s :
  length papers < 2 → compare_prompt papers s = (Raise insufficient_input, s).
Proof. intros Hlen. unfold compare_prompt. by destruct (decide _). Qed.

Lemma compare_prompt_long papers s :
  2 ≤ length papers → Forall (comparable s) papers →
  compare_prompt papers s =
    (Ok ("Here are " +:+ str_nat (length papers) +:+ " research papers. Please compare them by:

1. Identifying common themes and research directions
2. Highlighting key differences in approach or findings
3. Discussing how these papers relate to each other
4. Noting any complementary or contradictory findings

Papers:
" +:+ paper_blocks s 1 papers +:+ "

Please provide a comparative analysis:"), s).
Proof.
  intros Hlen Hall. unfold compare_prompt.
  destruct (decide _); [lia|]. unfold bind.
  by rewrite papers_text_loop_ok.
Qed.

End CompareFacts.

(** *** Store *)

Section StoreFacts.

Context {World : Type}.
Implicit Types (s : state World) (p : ref).

(** [q = p.copy(); q[key] = v]: the store gains one dictionary, the
    items of [p] with [key] set to [v], and nothing else changes. *)
Lemma copy_setitem_then {A} p key v (k : ref → M World A) s :
  (let! r := copy p in
   let! _ := setitem r key v in
   k r) s
  = k (length (heap s))
      (State (heap s ++ [<[key := v]> (deref s p)]) (world s) (stdout s)).
Proof.
  unfold bind, copy, setitem, deref. simpl. do 2 f_equal.
  rewrite list_lookup_total_middle by done.
  rewrite insert_app_r_alt by done. by rewrite Nat.sub_diag.
Qed.

Lemma extends_refl s : extends s s.
Proof. exists []. by rewrite app_nil_r. Qed.

Lemma extends_trans s1 s2 s3 : extends s1 s2 → extends s2 s3 → extends s1 s3.
Proof.
  intros [n1 H1] [n2 H2]. exists (n1 ++ n2). by rewrite H2, H1, app_assoc.
Qed.

Lemma extends_lookup s s' l d :
  extends s s' → heap s !! l = Some d → heap s' !! l = Some d.
Proof. intros [new ->] Hl. by apply lookup_app_l_Some. Qed.

Lemma extends_deref s s' p :
  extends s s' → p < length (heap s) → deref s' p = deref s p.
Proof.
  intros [new Hnew] Hp. unfold deref. rewrite Hnew.
  by apply lookup_total_app_l.
Qed.

Lemma has_key_valid s p key : is_Some (deref s p !! key) → p < length (heap s).
Proof.
  intros [v Hv]. destruct (decide (p < length (heap s))) as [|Hge]; [done|].
  unfold deref in Hv. rewrite list_lookup_total_alt in Hv.
  rewrite lookup_ge_None_2 in Hv by lia. done.
Qed.

End StoreFacts.

(** *** [ArxivAnalyzerGemini] *)

Section GeminiFacts.

Context {World : Type}.
Variable generate_content :
  string → option ArxivAnalyzerGemini.generation_config → World
  → result string * World.
Implicit Types (s : state World) (p : ref) (papers : list ref).

#[local] Abbreviation analyze := (ArxivAnalyzerGemini.analyze_paper generate_content).
#[local] Abbreviation loop := (ArxivAnalyzerGemini.batch_loop generate_content).
#[local] Abbreviation item := (item_result generate_content).
#[local] Abbreviation after := (after_item generate_content).

Lemma gemini_analyze_paper_run p k c t s :
  analyze p k c t s =
  match fst (full_prompt p k c s) with
  | Ok prompt =>
      let '(r, w) :=
        generate_content prompt
          (Some (ArxivAnalyzerGemini.GenerationConfig t 0.95%float 40 2048))
          (world s) in
      (r, State (heap s) w (stdout s))
  | Raise e => (Raise e, s)
  end.
Proof.
  unfold ArxivAnalyzerGemini.analyze_paper, bind.
  pose proof (full_prompt_state p k c s) as Hs.
  by destruct (full_prompt p k c s) as [[prompt|e] s1]; simpl in *; subst.
Qed.

Lemma gemini_analyze_paper_item p k t s :
  analyze p k None t s =
    (fst (item p k t s),
     State (heap s) (snd (item p k t s)) (stdout s)).
Proof.
  rewrite gemini_analyze_paper_run. unfold item_result.
  destruct (fst (full_prompt p k None s)) as [prompt|e].
  - by destruct (generate_content _ _ _).
  - by destruct s.
Qed.

Lemma item_result_ext p k t s s2 :
  deref s p = deref s2 p → world s = world s2 →
  item p k t s = item p k t s2.
Proof.
  intros Hd Hw. unfold item_result.
  by rewrite (full_prompt_fst p p k None s s2 Hd), Hw.
Qed.

Lemma gemini_batch_loop_no_title p rest i total k t acc s :
  deref s p !! "title" = None →
  loop (p :: rest) i total k t acc s = (Raise (KeyError "title"), s).
Proof. intros Ht. simpl. unfold bind at 1, getitem. by rewrite Ht. Qed.

Lemma gemini_batch_loop_cons p rest i total k t acc s :
  is_Some (deref s p !! "title") →
  loop (p :: rest) i total k t acc s =
    loop rest (S i) total k t (acc ++ [length (heap s)])
      (after i total k t p s).
Proof.
  intros [title Ht]. cbn [ArxivAnalyzerGemini.batch_loop].
  unfold bind at 1, getitem. rewrite Ht.
  unfold bind at 1, print. cbv beta iota.
  unfold bind at 1, try_except. unfold bind at 1.
  rewrite gemini_analyze_paper_item.
  set (s1 := State (heap s) (world s) _).
  rewrite (item_result_ext p k t s1 s) by done.
  unfold after_item. rewrite lookup_total_alt, Ht.
  destruct (fst (item p k t s)) as [text|e] eqn:Hr; cbv beta iota.
  - rewrite copy_setitem_then. subst s1. simpl. by rewrite app_nil_r.
  - unfold bind at 1, print. cbv beta iota.
    rewrite copy_setitem_then. by subst s1.
Qed.

Lemma after_item_extends i total k t p s : extends s (after i total k t p s).
Proof. by eexists. Qed.

Lemma after_item_length i total k t p s :
  length (heap (after i total k t p s)) = S (length (heap s)).
Proof. unfold after_item. simpl. rewrite length_app. simpl. lia. Qed.

Lemma after_item_entry i total k t p s :
  heap (after i total k t p s) !! length (heap s)
  = Some (<["analysis" := VStr (entry_text (fst (item p k t s)))]> (deref s p)).
Proof. unfold after_item. simpl. by rewrite list_lookup_middle. Qed.

(** Whatever the loop returns, the dictionaries that were there are
    untouched; when it returns a list, its entries are fresh copies, one
    per paper and in order, each with the analysis field set to the
    outcome of analysing that paper in the state the loop had reached. *)
Lemma gemini_batch_loop_inv papers : ∀ i total k t acc s res s',
  Forall (λ p, p < length (heap s)) papers →
  loop papers i total k t acc s = (res, s') →
  extends s s' ∧
  ∀ out, res = Ok out →
    out = acc ++ seq (length (heap s)) (length papers)
    ∧ length (heap s') = length (heap s) + length papers
    ∧ ∀ j p, papers !! j = Some p →
        heap s' !! (length (heap s) + j)
        = Some (<["analysis" :=
                    VStr (entry_text (fst (item p k t
                            (snd (loop (take j papers) i total k t acc s)))))]>
                  (deref s p)).
Proof.
  induction papers as [|p rest IH]; intros i total k t acc s res s' Hvalid Hrun.
  - injection Hrun as <- <-. split; [apply extends_refl|].
    intros out [= <-]. rewrite app_nil_r. simpl. split_and!; [done|lia|done].
  - apply Forall_cons in Hvalid as [Hp Hrest].
    destruct (deref s p !! "title") as [title|] eqn:Ht.
    + assert (is_Some (deref s p !! "title")) as Hsome by eauto.
      rewrite gemini_batch_loop_cons in Hrun by done.
      set (s1 := after i total k t p s) in *.
      pose proof (after_item_extends i total k t p s) as Hext1.
      pose proof (after_item_length i total k t p s) as Hlen1.
      apply IH in Hrun as [Hext Hout].
      2:{ eapply Forall_impl; [exact Hrest|]. intros q Hq. simpl in Hq.
          fold s1 in Hlen1. lia. }
      split; [by eapply extends_trans|].
      intros out Heq. destruct (Hout out Heq) as (-> & Hlen & Hentries).
      fold s1 in Hlen1. split_and!.
      * rewrite Hlen1, <-app_assoc. done.
      * rewrite Hlen, Hlen1. simpl. lia.
      * intros [|j] q Hj; simpl in Hj.
        -- injection Hj as <-. rewrite Nat.add_0_r. simpl.
           eapply extends_lookup; [exact Hext|]. apply after_item_entry.
        -- rewrite <-(extends_deref s s1) by
             (try done; eapply Forall_lookup_1 in Hrest; eauto).
           replace (length (heap s) + S j) with (length (heap s1) + j) by lia.
           rewrite (Hentries j q Hj). simpl take.
           by rewrite gemini_batch_loop_cons.
    + rewrite gemini_batch_loop_no_title in Hrun by done.
      injection Hrun as <- <-. split; [apply extends_refl|]. done.
Qed.

(** With a title in every paper the loop returns a list. *)
Lemma gemini_batch_loop_total papers : ∀ i total k t acc s,
  Forall (λ p, is_Some (deref s p !! "title")) papers →
  ∃ out s', loop papers i total k t acc s = (Ok out, s').
Proof.
  induction papers as [|p rest IH]; intros i total k t acc s Hall.
  - by exists acc, s.
  - apply Forall_cons in Hall as [Hp Hrest].
    rewrite gemini_batch_loop_cons by done. apply IH.
    eapply Forall_impl; [exact Hrest|]. intros q Hq. simpl in *.
    rewrite (extends_deref s); [done|apply after_item_extends|].
    by eapply has_key_valid.
Qed.

End GeminiFacts.

(** *** [ArxivAnalyzer] *)

Section ClaudeFacts.

Context {World : Type}.
Variable messages_create :
  string → Z → list ArxivAnalyzer.message_param → World
  → result (list string) * World.
Implicit Types (s : state World) (p : ref) (papers : list ref).

#[local] Abbreviation analyze := (ArxivAnalyzer.analyze_paper messages_create).
#[local] Abbreviation loop := (ArxivAnalyzer.batch_loop messages_create).

Lemma claude_analyze_paper_heap p k c s :
  heap (snd (analyze p k c s)) = heap s.
Proof.
  unfold ArxivAnalyzer.analyze_paper, bind.
  pose proof (full_prompt_state p k c s) as Hs.
  destruct (full_prompt p k c s) as [[prompt|e] s1]; simpl in *; subst; [|done].
  unfold backend. destruct (messages_create _ _ _ _) as [[[|b bs]|e] w]; done.
Qed.

(** Whatever the loop does, the dictionaries that were there are untouched;
    when it returns a list, its entries are fresh copies, one per paper
    and in order, each with an analysis field. *)
Lemma claude_batch_loop_inv papers : ∀ k acc s res s',
  Forall (λ p, p < length (heap s)) papers →
  loop papers k acc s = (res, s') →
  extends s s' ∧
  ∀ out, res = Ok out →
    out = acc ++ seq (length (heap s)) (length papers)
    ∧ length (heap s') = length (heap s) + length papers
    ∧ ∀ j p, papers !! j = Some p →
        ∃ text, heap s' !! (length (heap s) + j)
                = Some (<["analysis" := VStr text]> (deref s p)).
Proof.
  induction papers as [|p rest IH]; intros k acc s res s' Hvalid Hrun.
  - injection Hrun as <- <-. split; [apply extends_refl|].
    intros out [= <-]. rewrite app_nil_r. simpl. split_and!; [done|lia|done].
  - apply Forall_cons in Hvalid as [Hp Hrest].
    cbn [ArxivAnalyzer.batch_loop] in Hrun.
    unfold bind at 1, getitem in Hrun.
    destruct (deref s p !! "title") as [title|] eqn:Ht.
    2:{ injection Hrun as <- <-. split; [apply extends_refl|done]. }
    unfold bind at 1, print in Hrun. cbv beta iota in Hrun.
    unfold bind at 1 in Hrun.
    match type of Hrun with context [analyze p k None ?s0] =>
      pose proof (claude_analyze_paper_heap p k None s0) as Hheap;
      destruct (analyze p k None s0) as [[text|e] s2] eqn:Ha
    end; simpl in Hheap.
    2:{ injection Hrun as <- <-. split; [|done]. exists []. by rewrite app_nil_r. }
    rewrite copy_setitem_then in Hrun.
    assert (deref s2 p = deref s p) as Hd by (unfold deref; by rewrite Hheap).
    rewrite Hd, Hheap in Hrun.
    set (s1 := State (heap s ++ _) _ _) in Hrun.
    assert (extends s s1) as Hext1 by (by eexists).
    assert (length (heap s1) = S (length (heap s))) as Hlen1
      by (subst s1; simpl; rewrite length_app; simpl; lia).
    apply IH in Hrun as [Hext Hout].
    2:{ eapply Forall_impl; [exact Hrest|]. intros q Hq. simpl in Hq. lia. }
    split; [by eapply extends_trans|].
    intros out Heq. destruct (Hout out Heq) as (-> & Hlen & Hentries).
    split_and!.
    + rewrite Hlen1, <-app_assoc. done.
    + rewrite Hlen, Hlen1. simpl. lia.
    + intros [|j] q Hj; simpl in Hj.
      * injection Hj as <-. rewrite Nat.add_0_r. exists text.
        eapply extends_lookup; [exact Hext|].
        subst s1. simpl. by rewrite list_lookup_middle.
      * rewrite <-(extends_deref s s1) by
          (try done; eapply Forall_lookup_1 in Hrest; eauto).
        replace (length (heap s) + S j) with (length (heap s1) + j) by lia.
        by apply Hentries.
Qed.

End ClaudeFacts.

(** * The claims *)

(** C4. Rendering the single-paper prompt is a pure function of the items of
    the paper, the analysis type and the custom prompt: two renderings on
    papers with the same items give the same result, whatever else the two
    states hold and whichever backend they belong to, and the rendering
    leaves the state as it found it. *)
Theorem full_prompt_deterministic {W1 W2 : Type}
    (s1 : state W1) (s2 : state W2) (p1 p2 : ref)
    (analysis_type : string) (custom_prompt : option string) :
  deref s1 p1 = deref s2 p2 →
  fst (full_prompt p1 analysis_type custom_prompt s1)
  = fst (full_prompt p2 analysis_type custom_prompt s2)
  ∧ snd (full_prompt p1 analysis_type custom_prompt s1) = s1.
Proof.
  intros Hd. split; [by apply full_prompt_fst|apply full_prompt_state].
Qed.

Lemma full_prompt_deterministic_witness :
  fst (full_prompt 0 "critique" None Demo.start)
  = fst (full_prompt 1 "critique" None Demo.elsewhere)
  ∧ snd (full_prompt 0 "critique" None Demo.start) = Demo.start.
Proof. apply full_prompt_deterministic. reflexivity. Defined.

(** C5, as the claim has it, fails: the empty string supplied as custom
    prompt does not take the place of the template.  The instruction is the
    template of the analysis type, and the prompt is the one rendered with
    no custom prompt, not the paper content followed by the custom
    prompt. *)
Lemma custom_prompt_empty_counterexample :
  fst (analysis_prompt "critique" (Some EmptyString) Demo.start)
  = Ok "Provide a balanced critique of this paper, discussing both strengths and potential limitations."
  ∧ full_prompt 0 "critique" (Some EmptyString) Demo.start
    = full_prompt 0 "critique" None Demo.start
  ∧ full_prompt 0 "critique" (Some EmptyString) Demo.start
    ≠ (let! content := paper_content 0 in
       ret (content +:+ nl +:+ nl +:+ EmptyString)) Demo.start.
Proof.
  split_and!; [reflexivity..|].
  intros Heq. apply (f_equal fst) in Heq. vm_compute in Heq.
  injection Heq as Heq. discriminate Heq.
Qed.

(** C5, amended. For every paper and every analysis type, a custom prompt
    that is not the empty string is the instruction of the rendered
    prompt: the prompt is the paper content, a blank line and the custom
    prompt, and the template of the analysis type is not consulted. *)
Theorem custom_prompt_precedence {World : Type} (s : state World) (paper : ref)
    (analysis_type custom : string) :
  custom ≠ EmptyString →
  analysis_prompt analysis_type (Some custom) s = (Ok custom, s)
  ∧ full_prompt paper analysis_type (Some custom) s
    = (let! content := paper_content paper in
       ret (content +:+ nl +:+ nl +:+ custom)) s.
Proof.
  intros Hc. split; [by apply analysis_prompt_custom|].
  unfold full_prompt, bind.
  pose proof (paper_content_state paper s) as Hs.
  destruct (paper_content paper s) as [[content|e] s1];
    cbn [snd] in Hs; subst s1; [|done].
  by rewrite analysis_prompt_custom.
Qed.

Lemma custom_prompt_precedence_witness :
  analysis_prompt "critique" (Some "Explain it to a child.") Demo.start
  = (Ok "Explain it to a child.", Demo.start)
  ∧ full_prompt 0 "critique" (Some "Explain it to a child.") Demo.start
    = (let! content := paper_content 0 in
       ret (content +:+ nl +:+ nl +:+ "Explain it to a child.")) Demo.start.
Proof. apply custom_prompt_precedence. discriminate. Defined.

(** C6. With an analysis type that is none of the four keys of [prompts]
    and no custom prompt, choosing the instruction raises nothing and
    yields the summary instruction, and the rendered prompt is the one of
    the analysis type [summary]. *)
Theorem unknown_analysis_type_falls_back {World : Type} (s : state World)
    (paper : ref) (analysis_type : string) :
  analysis_type ∉ ["summary"; "key_findings"; "methodology"; "critique"] →
  analysis_prompt analysis_type None s
  = (Ok "Please provide a concise summary of this paper, highlighting the main contributions and findings.", s)
  ∧ full_prompt paper analysis_type None s = full_prompt paper "summary" None s.
Proof.
  intros Hk.
  assert (∀ s' : state World,
    analysis_prompt analysis_type None s' = analysis_prompt "summary" None s')
    as Hsame.
  { intros s'. rewrite !analysis_prompt_template by auto.
    by rewrite prompts_keys. }
  split.
  - rewrite analysis_prompt_template by auto. by rewrite prompts_keys.
  - unfold full_prompt, bind.
    destruct (paper_content paper s) as [[content|e] s1]; [|done].
    by rewrite Hsame.
Qed.

Lemma unknown_analysis_type_falls_back_witness :
  analysis_prompt "sentiment" None Demo.start
  = (Ok "Please provide a concise summary of this paper, highlighting the main contributions and findings.", Demo.start)
  ∧ full_prompt 0 "sentiment" None Demo.start
    = full_prompt 0 "summary" None Demo.start.
Proof.
  apply unknown_analysis_type_falls_back.
  apply (bool_decide_unpack _). vm_compute. exact I.
Defined.

(** C7. In both classes [compare_papers] raises the [ValueError] of its
    guard exactly when it is given fewer than 2 papers, and then the state,
    the world of the backend included, is as before: no call was made.
    Given 2 papers or more, with the keys the rendering reads, it renders
    the comparison prompt and its outcome is the one of the backend call on
    that prompt. *)
Theorem compare_papers_guard {World : Type}
    (generate_content :
       string → option ArxivAnalyzerGemini.generation_config → World
       → result string * World)
    (messages_create :
       string → Z → list ArxivAnalyzer.message_param → World
       → result (list string) * World)
    (papers : list ref) (temperature : float) (s : state World) :
  (fst (compare_prompt papers s) = Raise insufficient_input ↔ length papers < 2)
  ∧ (length papers < 2 →
       ArxivAnalyzerGemini.compare_papers generate_content papers temperature s
       = (Raise insufficient_input, s)
       ∧ ArxivAnalyzer.compare_papers messages_create papers s
         = (Raise insufficient_input, s))
  ∧ (2 ≤ length papers → Forall (comparable s) papers →
       ∃ prompt, compare_prompt papers s = (Ok prompt, s)
         ∧ ArxivAnalyzerGemini.compare_papers generate_content papers temperature s
           = backend (generate_content prompt
                        (Some (ArxivAnalyzerGemini.GenerationConfig
                                 temperature 0.95%float 40 3072))) s
         ∧ ArxivAnalyzer.compare_papers messages_create papers s
           = (let! message :=
                backend (messages_create "claude-sonnet-4-20250514" 3000%Z
                           [ArxivAnalyzer.MessageParam "user" prompt]) in
              ArxivAnalyzer.first_text message) s).
Proof.
  split_and!.
  - split; [|intros Hlen; by rewrite compare_prompt_short].
    intros Hraise. destruct (decide (length papers < 2)) as [|Hge]; [done|].
    exfalso. unfold compare_prompt in Hraise.
    destruct (decide _); [done|]. unfold bind in Hraise.
    destruct (papers_text_loop papers 1 EmptyString s) as [[text|e] s1] eqn:Hloop;
      [done|].
    simpl in Hraise. injection Hraise as ->.
    destruct (papers_text_loop_raises papers 1 EmptyString s insufficient_input)
      as [k Hk]; [by rewrite Hloop|done].
  - intros Hlen.
    unfold ArxivAnalyzerGemini.compare_papers, ArxivAnalyzer.compare_papers, bind.
    by rewrite compare_prompt_short.
  - intros Hlen Hall. eexists. split; [by apply compare_prompt_long|].
    split.
    + unfold ArxivAnalyzerGemini.compare_papers, bind.
      by rewrite compare_prompt_long by done.
    + unfold ArxivAnalyzer.compare_papers. unfold bind at 1.
      by rewrite compare_prompt_long by done.
Qed.

Lemma compare_papers_guard_witness :
  (ArxivAnalyzerGemini.compare_papers Demo.generate_content [0] 0.7%float Demo.start
   = (Raise insufficient_input, Demo.start)
   ∧ ArxivAnalyzer.compare_papers Demo.messages_create [0] Demo.start
     = (Raise insufficient_input, Demo.start))
  ∧ ArxivAnalyzerGemini.compare_papers Demo.generate_content [0; 1] 0.7%float
      Demo.start
    = (Ok "analysis #0", State (heap Demo.start) 1 (stdout Demo.start))
  ∧ ArxivAnalyzer.compare_papers Demo.messages_create [2; 0; 1] Demo.start
    = (Ok "analysis #0", State (heap Demo.start) 1 (stdout Demo.start)).
Proof.
  split; [|split].
  - apply (compare_papers_guard Demo.generate_content Demo.messages_create
             [0] 0.7%float Demo.start).
    simpl. lia.
  - destruct (compare_papers_guard Demo.generate_content Demo.messages_create
                [0; 1] 0.7%float Demo.start) as (_ & _ & Hlong).
    destruct (Hlong ltac:(simpl; lia) ltac:(repeat constructor; by eexists))
      as (prompt & _ & Hgemini & _).
    by rewrite Hgemini.
  - destruct (compare_papers_guard Demo.generate_content Demo.messages_create
                [2; 0; 1] 0.7%float Demo.start) as (_ & _ & Hlong).
    destruct (Hlong ltac:(simpl; lia) ltac:(repeat constructor; by eexists))
      as (prompt & _ & _ & Hclaude).
    by rewrite Hclaude.
Defined.

(** C8. For 2 papers or more, with the keys the rendering reads, the
    comparison prompt is one string in which every paper occurs as its
    numbered block (number, title, authors, abstract, closed by the [---]
    line), and in which the four comparison directives occur. *)
Theorem compare_prompt_contents {World : Type} (papers : list ref)
    (s : state World) :
  2 ≤ length papers → Forall (comparable s) papers →
  ∃ prompt, compare_prompt papers s = (Ok prompt, s)
    ∧ (∀ j p title authors summary,
         papers !! j = Some p →
         deref s p !! "title" = Some title →
         deref s p !! "authors" = Some authors →
         deref s p !! "summary" = Some summary →
         infix_of (paper_block (S j) title authors summary) prompt)
    ∧ infix_of "1. Identifying common themes and research directions" prompt
    ∧ infix_of "2. Highlighting key differences in approach or findings" prompt
    ∧ infix_of "3. Discussing how these papers relate to each other" prompt
    ∧ infix_of "4. Noting any complementary or contradictory findings" prompt.
Proof.
  intros Hlen Hall. eexists. split; [by apply compare_prompt_long|].
  split_and!.
  - intros j p title authors summary Hj Ht Ha Hm.
    do 3 apply infix_of_app_r. apply infix_of_app_l.
    pose proof (paper_blocks_infix papers 1 j p s Hj) as Hin.
    by rewrite !lookup_total_alt, Ht, Ha, Hm in Hin.
  - apply infix_of_app_r, infix_of_app_r, infix_of_app_l.
    eexists " research papers. Please compare them by:

", _. reflexivity.
  - apply infix_of_app_r, infix_of_app_r, infix_of_app_l.
    eexists " research papers. Please compare them by:

1. Identifying common themes and research directions
", _. reflexivity.
  - apply infix_of_app_r, infix_of_app_r, infix_of_app_l.
    eexists " research papers. Please compare them by:

1. Identifying common themes and research directions
2. Highlighting key differences in approach or findings
", _. reflexivity.
  - apply infix_of_app_r, infix_of_app_r, infix_of_app_l.
    eexists " research papers. Please compare them by:

1. Identifying common themes and research directions
2. Highlighting key differences in approach or findings
3. Discussing how these papers relate to each other
", _. reflexivity.
Qed.

Lemma compare_prompt_contents_witness :
  ∃ prompt, compare_prompt [0; 1] Demo.start = (Ok prompt, Demo.start)
    ∧ infix_of (paper_block 2 (VStr "Deep Residual Learning") (VList ["K. He"])
                  (VStr "We present a residual learning framework.")) prompt
    ∧ infix_of "4. Noting any complementary or contradictory findings" prompt.
Proof.
  destruct (compare_prompt_contents [0; 1] Demo.start)
    as (prompt & Hrun & Hblocks & _ & _ & _ & H4).
  - simpl. lia.
  - repeat constructor; by eexists.
  - exists prompt. split_and!; [done| |done].
    by apply (Hblocks 1 1).
Defined.

(** The list comprehension of [extract_key_concepts] renders one block per
    paper. *)
Lemma abstract_blocks_ok {World : Type} (papers : list ref) : ∀ s : state World,
  Forall (λ p, is_Some (deref s p !! "title") ∧ is_Some (deref s p !! "summary"))
    papers →
  ArxivAnalyzerGemini.abstract_blocks papers s
  = (Ok ((λ p, "Paper: " +:+ str (deref s p !!! "title") +:+ nl
               +:+ str (deref s p !!! "summary")) <$> papers), s).
Proof.
  induction papers as [|p rest IH]; intros s Hall; [done|].
  apply Forall_cons in Hall as [([t Ht] & [m Hm]) Hrest].
  cbn [ArxivAnalyzerGemini.abstract_blocks].
  unfold bind at 1 2, getitem. rewrite Ht, Hm.
  unfold bind. rewrite IH by done.
  rewrite fmap_cons. cbv beta. by rewrite !lookup_total_alt, Ht, Hm.
Qed.

(** C9. [extract_key_concepts] returns a string: for papers with a title
    and an abstract and for every [max_concepts], its outcome is the
    outcome of one backend call, without a generation configuration, on the
    rendered prompt; the text the backend generates is returned as it is. *)
Theorem extract_key_concepts_raw_text {World : Type}
    (generate_content :
       string → option ArxivAnalyzerGemini.generation_config → World
       → result string * World)
    (papers : list ref) (max_concepts : Z) (s : state World) :
  Forall (λ p, is_Some (deref s p !! "title") ∧ is_Some (deref s p !! "summary"))
    papers →
  ∃ prompt,
    ArxivAnalyzerGemini.extract_key_concepts generate_content papers max_concepts s
    = backend (generate_content prompt None) s
    ∧ ∀ text w', generate_content prompt None (world s) = (Ok text, w') →
        ArxivAnalyzerGemini.extract_key_concepts generate_content papers
          max_concepts s
        = (Ok text, State (heap s) w' (stdout s)).
Proof.
  intros Hall. unfold ArxivAnalyzerGemini.extract_key_concepts, bind.
  rewrite abstract_blocks_ok by done.
  eexists. split; [reflexivity|].
  intros text w' Hgen. unfold backend. by rewrite Hgen.
Qed.

Lemma extract_key_concepts_raw_text_witness :
  ArxivAnalyzerGemini.extract_key_concepts Demo.generate_content [0; 1; 2] 10
    Demo.start
  = (Ok "analysis #0", State (heap Demo.start) 1 (stdout Demo.start)).
Proof.
  destruct (extract_key_concepts_raw_text Demo.generate_content [0; 1; 2] 10
              Demo.start) as (prompt & _ & Hraw).
  - repeat constructor; by eexists.
  - by apply Hraw.
Defined.

(** *** The batches *)

Section GeminiBatch.

Context {World : Type}.
Variable generate_content :
  string → option ArxivAnalyzerGemini.generation_config → World
  → result string * World.
Implicit Types (s : state World) (p : ref) (papers : list ref).

#[local] Abbreviation analyze := (ArxivAnalyzerGemini.analyze_paper generate_content).
#[local] Abbreviation loop := (ArxivAnalyzerGemini.batch_loop generate_content).
#[local] Abbreviation batch :=
  (ArxivAnalyzerGemini.batch_analyze_papers generate_content).

(** The batch of [ArxivAnalyzerGemini] on papers that have a title: it
    returns a list, one new dictionary per paper and in the order of the
    papers; the dictionary of paper [j] has the items of that paper and,
    under [analysis], what [entry_text] makes of the outcome of
    [analyze_paper] on it in the state reached after the papers before
    it. *)
Lemma gemini_batch_entries papers kind temp s :
  Forall (λ p, is_Some (deref s p !! "title")) papers →
  ∃ out s', batch papers kind temp s = (Ok out, s')
    ∧ extends s s'
    ∧ length out = length papers
    ∧ ∀ j p, papers !! j = Some p →
        ∃ r, out !! j = Some r ∧ length (heap s) ≤ r
          ∧ deref s' r
            = <["analysis" :=
                  VStr (entry_text (fst (analyze p kind None temp
                          (snd (loop (take j papers) 1 (length papers)
                                  kind temp [] s)))))]>
                (deref s p).
Proof.
  intros Hall.
  destruct (gemini_batch_loop_total generate_content papers 1 (length papers)
              kind temp [] s Hall) as (out & s' & Hrun).
  exists out, s'. split; [exact Hrun|].
  apply gemini_batch_loop_inv in Hrun as [Hext Hout].
  2:{ eapply Forall_impl; [exact Hall|]. intros q Hq.
      exact (has_key_valid s q "title" Hq). }
  destruct (Hout out eq_refl) as (-> & Hlen & Hentries).
  split; [done|]. split; [by rewrite length_app, length_seq|].
  intros j p Hj. exists (length (heap s) + j).
  pose proof (lookup_lt_Some _ _ _ Hj) as Hlt.
  split; [by apply lookup_seq_lt|]. split; [lia|].
  unfold deref at 1. erewrite list_lookup_total_correct; [|by apply Hentries].
  by rewrite gemini_analyze_paper_item.
Qed.

End GeminiBatch.

(** C3. When the backend of [ArxivAnalyzerGemini] generates a text for the
    prompt of a paper, [analyze_paper] returns that very text; and in a
    batch over papers that have a title, when the backend generates a text
    for paper [j] in the state the batch has reached after the papers
    before it, the entry [j] of the returned list has exactly that text in
    its analysis field. *)
Theorem gemini_analysis_verbatim {World : Type}
    (generate_content :
       string → option ArxivAnalyzerGemini.generation_config → World
       → result string * World)
    (papers : list ref) (kind : string) (temp : float) (s : state World) :
  (∀ p custom prompt text w',
     fst (full_prompt p kind custom s) = Ok prompt →
     generate_content prompt
       (Some (ArxivAnalyzerGemini.GenerationConfig temp 0.95%float 40 2048))
       (world s) = (Ok text, w') →
     ArxivAnalyzerGemini.analyze_paper generate_content p kind custom temp s
     = (Ok text, State (heap s) w' (stdout s)))
  ∧ (Forall (λ p, is_Some (deref s p !! "title")) papers →
     ∀ j p prompt text w',
       papers !! j = Some p →
       let sj := snd (ArxivAnalyzerGemini.batch_loop generate_content
                        (take j papers) 1 (length papers) kind temp [] s) in
       fst (full_prompt p kind None sj) = Ok prompt →
       generate_content prompt
         (Some (ArxivAnalyzerGemini.GenerationConfig temp 0.95%float 40 2048))
         (world sj) = (Ok text, w') →
       ∃ out s' r,
         ArxivAnalyzerGemini.batch_analyze_papers generate_content papers kind
           temp s = (Ok out, s')
         ∧ out !! j = Some r
         ∧ deref s' r !! "analysis" = Some (VStr text)).
Proof.
  split.
  - intros p custom prompt text w' Hprompt Hgen.
    by rewrite gemini_analyze_paper_run, Hprompt, Hgen.
  - intros Hall j p prompt text w' Hj sj Hprompt Hgen.
    destruct (gemini_batch_entries generate_content papers kind temp s Hall)
      as (out & s' & Hrun & _ & _ & Hentries).
    destruct (Hentries j p Hj) as (r & Hr & _ & Hd).
    exists out, s', r. split_and!; [done..|].
    rewrite Hd, lookup_insert_eq. fold sj.
    by rewrite gemini_analyze_paper_run, Hprompt, Hgen.
Qed.

Lemma gemini_analysis_verbatim_witness :
  ∃ out s' r,
    ArxivAnalyzerGemini.batch_analyze_papers Demo.generate_content [0; 1; 2]
      "key_findings" 0.7%float Demo.start = (Ok out, s')
    ∧ out !! 2 = Some r
    ∧ deref s' r !! "analysis" = Some (VStr "analysis #2").
Proof.
  destruct (gemini_analysis_verbatim Demo.generate_content [0; 1; 2]
              "key_findings" 0.7%float Demo.start) as [_ Hbatch].
  eapply (Hbatch ltac:(repeat constructor; by eexists) 2 2).
  - reflexivity.
  - vm_compute. reflexivity.
  - vm_compute. reflexivity.
Defined.

(** The batch of [ArxivAnalyzerGemini] on papers that have a title returns
    one entry per paper, in the order of the papers, each with the items of
    its paper and an analysis field. *)
Lemma gemini_batch_one_entry_per_paper {World : Type}
    (generate_content :
       string → option ArxivAnalyzerGemini.generation_config → World
       → result string * World)
    (papers : list ref) (kind : string) (temp : float) (s : state World) :
  Forall (λ p, is_Some (deref s p !! "title")) papers →
  ∃ out s',
    ArxivAnalyzerGemini.batch_analyze_papers generate_content papers kind temp s
    = (Ok out, s')
    ∧ length out = length papers
    ∧ ∀ j p, papers !! j = Some p →
        ∃ r text, out !! j = Some r
          ∧ deref s' r !! "analysis" = Some (VStr text)
          ∧ ∀ key, key ≠ "analysis" → deref s' r !! key = deref s p !! key.
Proof.
  intros Hall.
  destruct (gemini_batch_entries generate_content papers kind temp s Hall)
    as (out & s' & Hrun & _ & Hlen & Hentries).
  exists out, s'. split_and!; [done..|].
  intros j p Hj. destruct (Hentries j p Hj) as (r & Hr & _ & Hd).
  exists r. eexists. rewrite Hd. split_and!; [done|apply lookup_insert_eq|].
  intros key Hkey. by rewrite lookup_insert_ne.
Qed.

(** The batch of [ArxivAnalyzerGemini] isolates failures: when
    [analyze_paper] raises on paper [j], the batch still returns its list,
    and entry [j] has, under [analysis], the text [Error: ] followed by
    [str] of the exception. *)
Lemma gemini_batch_isolates_failures {World : Type}
    (generate_content :
       string → option ArxivAnalyzerGemini.generation_config → World
       → result string * World)
    (papers : list ref) (kind : string) (temp : float) (s : state World)
    (j : nat) (p : ref) (e : exn) :
  Forall (λ p, is_Some (deref s p !! "title")) papers →
  papers !! j = Some p →
  fst (ArxivAnalyzerGemini.analyze_paper generate_content p kind None temp
         (snd (ArxivAnalyzerGemini.batch_loop generate_content (take j papers)
                 1 (length papers) kind temp [] s))) = Raise e →
  ∃ out s' r,
    ArxivAnalyzerGemini.batch_analyze_papers generate_content papers kind temp s
    = (Ok out, s')
    ∧ length out = length papers
    ∧ out !! j = Some r
    ∧ deref s' r !! "analysis" = Some (VStr ("Error: " +:+ exn_str e)).
Proof.
  intros Hall Hj Hraise.
  destruct (gemini_batch_entries generate_content papers kind temp s Hall)
    as (out & s' & Hrun & _ & Hlen & Hentries).
  destruct (Hentries j p Hj) as (r & Hr & _ & Hd).
  exists out, s', r. split_and!; [done..|].
  by rewrite Hd, lookup_insert_eq, Hraise.
Qed.

(** C1 fails on [ArxivAnalyzer]: with a backend that fails on its second
    call, the batch over three papers raises and returns no list, where
    the batch of [ArxivAnalyzerGemini] returns its three entries. *)
Theorem claude_batch_returns_no_list :
  fst (ArxivAnalyzer.batch_analyze_papers Demo.messages_create [0; 1; 2]
         "key_findings" Demo.start)
  = Raise (BackendError "quota exceeded")
  ∧ fst (ArxivAnalyzerGemini.batch_analyze_papers Demo.generate_content
           [0; 1; 2] "key_findings" 0.7%float Demo.start)
    = Ok [3; 4; 5].
Proof. split; vm_compute; reflexivity. Qed.

(** C2 fails on [ArxivAnalyzer]: the failure on the second paper is not
    caught; the batch stops there, the third paper is never analysed (two
    calls were made), and the copy made for the first paper is returned to
    no one.  [ArxivAnalyzerGemini], on the same input, stores the sentinel
    for the second paper and goes on. *)
Theorem claude_batch_stops_at_failure :
  ArxivAnalyzer.batch_analyze_papers Demo.messages_create [0; 1; 2]
    "key_findings" Demo.start
  = (Raise (BackendError "quota exceeded"),
     State [Demo.paper_a; Demo.paper_b; Demo.paper_c;
            <["analysis" := VStr "analysis #0"]> Demo.paper_a]
           2
           ["Analyzing: Attention Is All You Need...";
            "Analyzing: Deep Residual Learning..."])
  ∧ (λ d : dict, d !! "analysis")
      <$> heap (snd (ArxivAnalyzerGemini.batch_analyze_papers
                       Demo.generate_content [0; 1; 2] "key_findings"
                       0.7%float Demo.start))
    = [None; None; None; Some (VStr "analysis #0");
       Some (VStr "Error: quota exceeded"); Some (VStr "analysis #2")].
Proof. split; vm_compute; reflexivity. Qed.

(** C10. In both classes, whatever the batch does, every dictionary that
    was in the store is still there with the same items: the papers handed
    in are not changed.  When the batch returns a list, it has one entry
    per paper, every entry is a dictionary that did not exist before, and
    under every key but [analysis] it has what its paper has. *)
Theorem batch_analyze_papers_frame {World : Type}
    (generate_content :
       string → option ArxivAnalyzerGemini.generation_config → World
       → result string * World)
    (messages_create :
       string → Z → list ArxivAnalyzer.message_param → World
       → result (list string) * World)
    (papers : list ref) (kind : string) (temp : float) (s : state World)
    (res : result (list ref)) (s' : state World) :
  Forall (λ p, p < length (heap s)) papers →
  ArxivAnalyzerGemini.batch_analyze_papers generate_content papers kind temp s
    = (res, s')
  ∨ ArxivAnalyzer.batch_analyze_papers messages_create papers kind s = (res, s') →
  extends s s'
  ∧ (∀ p d, p ∈ papers → heap s !! p = Some d → heap s' !! p = Some d)
  ∧ ∀ out, res = Ok out →
      length out = length papers
      ∧ ∀ j p r, papers !! j = Some p → out !! j = Some r →
          length (heap s) ≤ r
          ∧ ∀ key, key ≠ "analysis" → deref s' r !! key = deref s p !! key.
Proof.
  intros Hvalid Hrun.
  assert (extends s s' ∧
    ∀ out, res = Ok out →
      out = seq (length (heap s)) (length papers)
      ∧ ∀ j p, papers !! j = Some p →
          ∃ text, heap s' !! (length (heap s) + j)
                  = Some (<["analysis" := VStr text]> (deref s p)))
    as [Hext Hout].
  { destruct Hrun as [Hrun|Hrun].
    - apply gemini_batch_loop_inv in Hrun as [Hext Hout]; [|done].
      split; [done|]. intros out Heq.
      destruct (Hout out Heq) as (-> & _ & Hentries). split; [done|].
      intros j p Hj. eexists. by apply Hentries.
    - apply claude_batch_loop_inv in Hrun as [Hext Hout]; [|done].
      split; [done|]. intros out Heq.
      destruct (Hout out Heq) as (-> & _ & Hentries). by split. }
  split; [done|]. split; [intros p d _; by apply extends_lookup|].
  intros out Heq. destruct (Hout out Heq) as (-> & Hentries).
  split; [by rewrite length_seq|].
  intros j p r Hj Hr. apply lookup_seq in Hr as [-> Hlt].
  split; [lia|]. intros key Hkey.
  destruct (Hentries j p Hj) as [text Hd].
  unfold deref at 1. erewrite list_lookup_total_correct; [|exact Hd].
  by rewrite lookup_insert_ne.
Qed.

Lemma batch_analyze_papers_frame_witness :
  extends Demo.start
    (snd (ArxivAnalyzerGemini.batch_analyze_papers Demo.generate_content
            [0; 1; 1] "summary" 0.7%float Demo.start))
  ∧ extends Demo.second
      (snd (ArxivAnalyzer.batch_analyze_papers Demo.messages_create
              [2; 0] "summary" Demo.second)).
Proof.
  split.
  - eapply (batch_analyze_papers_frame Demo.generate_content
              Demo.messages_create [0; 1; 1] "summary" 0.7%float Demo.start).
    + repeat constructor; simpl; lia.
    + left. apply surjective_pairing.
  - eapply (batch_analyze_papers_frame Demo.generate_content
              Demo.messages_create [2; 0] "summary" 0.7%float Demo.second).
    + repeat constructor; simpl; lia.
    + right. apply surjective_pairing.
Defined.

(** * Further properties *)

(** *** [search_papers] *)

Lemma split_segments (sep : ascii) (s : string) :
  ∃ init seg, split sep s = init ++ [seg]
    ∧ str_contains sep seg = false
    ∧ s = segments_text sep init +:+ seg.
Proof.
  induction s as [|c rest (init & seg & Hsplit & Hseg & Hrest)].
  - by exists [], EmptyString.
  - simpl. destruct (decide (c = sep)) as [->|Hc].
    + exists (EmptyString :: init), seg. rewrite Hsplit. split_and!; [done..|].
      rewrite Hrest at 1. reflexivity.
    + rewrite Hsplit. destruct init as [|x init]; simpl.
      * exists [], (String c seg). split_and!; [done| |by rewrite Hrest at 1].
        simpl. destruct (decide (sep = c)); [congruence|done].
      * exists (String c x :: init), seg. split_and!; [done..|].
        rewrite Hrest at 1. reflexivity.
Qed.

Lemma segments_text_end (sep : ascii) (init : list string) :
  segments_text sep init = EmptyString
  ∨ ∃ pre, segments_text sep init = pre +:+ String sep EmptyString.
Proof.
  induction init as [|x init IH]; [by left|]. right. simpl.
  destruct IH as [->|[pre ->]].
  - by exists x.
  - exists (x +:+ String sep pre). by rewrite str_app_assoc.
Qed.

Lemma arxiv_id_of_run {World : Type} (entry_id : string) (s : state World) :
  arxiv_id_of entry_id s
  = (Ok (default EmptyString (last (split "/"%char entry_id))), s).
Proof.
  destruct (split_segments "/"%char entry_id) as (init & seg & Hsplit & _).
  unfold arxiv_id_of, last_item. by rewrite Hsplit, last_snoc.
Qed.

(** X1. The identifier of a paper is the last segment of the entry reference:
    taking it never fails, it has no slash in it, the reference ends with
    it, and what comes before it is nothing or ends with a slash. *)
Theorem arxiv_id_last_segment {World : Type} (entry_id : string)
    (s : state World) :
  ∃ arxiv_id pre,
    arxiv_id_of entry_id s = (Ok arxiv_id, s)
    ∧ str_contains "/"%char arxiv_id = false
    ∧ entry_id = pre +:+ arxiv_id
    ∧ (pre = EmptyString ∨ ∃ pre', pre = pre' +:+ "/").
Proof.
  destruct (split_segments "/"%char entry_id) as (init & seg & Hsplit & Hseg & Hid).
  exists seg, (segments_text "/"%char init). split_and!; [|done..|].
  - unfold arxiv_id_of, last_item. by rewrite Hsplit, last_snoc.
  - apply segments_text_end.
Qed.

Section SearchFacts.

Context {World datetime : Type}.
Variable strftime : datetime → string → string.
Variable search_results :
  string → Z → Arxiv.SortCriterion → World
  → (list (Arxiv.Result datetime) * option exn) * World.
Implicit Types (s : state World) (results : list (Arxiv.Result datetime)).

Lemma search_loop_run results : ∀ papers s,
  search_loop strftime results papers s
  = (Ok (papers ++ seq (length (heap s)) (length results)),
     State (heap s ++ (searched_paper strftime <$> results)) (world s) (stdout s)).
Proof.
  induction results as [|r rest IH]; intros papers s.
  - simpl. rewrite !app_nil_r. by destruct s.
  - cbn [search_loop]. unfold bind at 1.
    rewrite arxiv_id_of_run. unfold bind at 1, new_dict. rewrite IH. simpl.
    rewrite length_app, <-!app_assoc. simpl.
    by replace (length (heap s) + 1) with (S (length (heap s))) by lia.
Qed.

Lemma search_papers_run query max_results sort_by s :
  search_papers strftime search_results query max_results sort_by s
  = let '((results, ending), w) :=
      search_results query max_results sort_by (world s) in
    (match ending with
     | None => Ok (seq (length (heap s)) (length results))
     | Some e => Raise e
     end,
     State (heap s ++ (searched_paper strftime <$> results)) w (stdout s)).
Proof.
  unfold search_papers. unfold bind at 1, backend.
  destruct (search_results _ _ _ _) as [[results ending] w].
  unfold bind. rewrite search_loop_run. simpl. by destruct ending.
Qed.

End SearchFacts.

(** *** Rendering, key by key *)

Section RenderFacts.

Context {World : Type}.
Implicit Types (s : state World) (p : ref).

Lemma bind_getitem {A} p key (k : value → M World A) s :
  (let! v := getitem p key in k v) s
  = match deref s p !! key with
    | Some v => k v s
    | None => (Raise (KeyError key), s)
    end.
Proof. unfold bind, getitem. by destruct (deref s p !! key). Qed.

Lemma paper_content_ok p s :
  Forall (λ k, is_Some (deref s p !! k)) rendered_keys →
  ∃ content, paper_content p s = (Ok content, s).
Proof.
  intros Hkeys. unfold rendered_keys in Hkeys.
  repeat (apply Forall_cons in Hkeys as [[? ?] Hkeys]).
  unfold paper_content, bind, getitem.
  repeat match goal with H : deref s p !! _ = Some _ |- _ => rewrite H; clear H end.
  by eexists.
Qed.

Lemma full_prompt_ok p kind custom s :
  Forall (λ k, is_Some (deref s p !! k)) rendered_keys →
  ∃ prompt, full_prompt p kind custom s = (Ok prompt, s).
Proof.
  intros Hkeys. destruct (paper_content_ok p s Hkeys) as [content Hcontent].
  unfold full_prompt. unfold bind at 1. rewrite Hcontent. unfold bind.
  destruct custom as [c|]; [destruct (decide (c = EmptyString)) as [->|Hc]|].
  - rewrite analysis_prompt_template by auto. by eexists.
  - rewrite analysis_prompt_custom by done. by eexists.
  - rewrite analysis_prompt_template by auto. by eexists.
Qed.

Lemma paper_content_missing p s before k after :
  rendered_keys = before ++ k :: after →
  Forall (λ k', is_Some (deref s p !! k')) before →
  deref s p !! k = None →
  paper_content p s = (Raise (KeyError k), s).
Proof.
  intros Hsplit Hbefore Hk. unfold rendered_keys in Hsplit.
  unfold paper_content.
  repeat (destruct before as [|? before];
          [injection Hsplit as <- <-; by rewrite bind_getitem, Hk
          |injection Hsplit as <- Hsplit;
           apply Forall_cons in Hbefore as [[? Hv] Hbefore];
           rewrite bind_getitem, Hv; clear Hv]).
  by destruct before.
Qed.

End RenderFacts.

Lemma paper_content_keys {W1 W2 : Type} (s1 : state W1) (s2 : state W2)
    (p1 p2 : ref) :
  Forall (λ k, deref s1 p1 !! k = deref s2 p2 !! k) rendered_keys →
  fst (paper_content p1 s1) = fst (paper_content p2 s2).
Proof.
  intros Hkeys. unfold rendered_keys in Hkeys.
  repeat (apply Forall_cons in Hkeys as [? Hkeys]).
  unfold paper_content, bind, getitem.
  repeat match goal with
         | H : deref s1 p1 !! ?k = _ |- _ =>
             rewrite H; clear H; destruct (deref s2 p2 !! k); simpl; [|done]
         end.
  done.
Qed.

(** X8. What reaches the backend of a paper is made of five of its items only:
    two papers that agree on title, authors, publication date, categories
    and abstract are rendered to the same prompt, whatever else they hold
    (an identifier, a link, an earlier analysis). *)
Theorem full_prompt_rendered_keys {W1 W2 : Type} (s1 : state W1)
    (s2 : state W2) (p1 p2 : ref) (kind : string) (custom : option string) :
  Forall (λ k, deref s1 p1 !! k = deref s2 p2 !! k) rendered_keys →
  fst (full_prompt p1 kind custom s1) = fst (full_prompt p2 kind custom s2).
Proof.
  intros Hkeys. unfold full_prompt, bind.
  pose proof (paper_content_keys s1 s2 p1 p2 Hkeys) as Hc.
  pose proof (paper_content_state p1 s1) as H1.
  pose proof (paper_content_state p2 s2) as H2.
  destruct (paper_content p1 s1) as [[c1|e1] s1'],
           (paper_content p2 s2) as [[c2|e2] s2'];
    cbn [fst snd] in *; subst; try done.
  injection Hc as ->.
  pose proof (analysis_prompt_fst kind custom s1 s2) as Ha.
  destruct (analysis_prompt kind custom s1) as [[i1|x1] ?],
           (analysis_prompt kind custom s2) as [[i2|x2] ?];
    simpl in *; congruence.
Qed.

Lemma full_prompt_rendered_keys_witness :
  fst (full_prompt 2 "critique" None DemoSearch.shelf)
  = fst (full_prompt 0 "critique" None Demo.start).
Proof.
  apply full_prompt_rendered_keys. repeat constructor.
Defined.

(** X7. A paper that lacks one of the five items makes [analyze_paper], of
    either class, raise the [KeyError] of the first one missing, in the
    order title, authors, published, categories, summary; the backend is
    not called. *)
Theorem analyze_paper_missing_key {World : Type}
    (generate_content :
       string → option ArxivAnalyzerGemini.generation_config → World
       → result string * World)
    (messages_create :
       string → Z → list ArxivAnalyzer.message_param → World
       → result (list string) * World)
    (s : state World) (p : ref) (kind : string) (custom : option string)
    (temp : float) (before : list string) (k : string) (after : list string) :
  rendered_keys = before ++ k :: after →
  Forall (λ k', is_Some (deref s p !! k')) before →
  deref s p !! k = None →
  ArxivAnalyzerGemini.analyze_paper generate_content p kind custom temp s
  = (Raise (KeyError k), s)
  ∧ ArxivAnalyzer.analyze_paper messages_create p kind custom s
    = (Raise (KeyError k), s).
Proof.
  intros Hsplit Hbefore Hk.
  assert (full_prompt p kind custom s = (Raise (KeyError k), s)) as Hprompt.
  { unfold full_prompt. unfold bind at 1.
    by rewrite (paper_content_missing p s before k after). }
  split.
  - by rewrite gemini_analyze_paper_run, Hprompt.
  - unfold ArxivAnalyzer.analyze_paper. unfold bind at 1. by rewrite Hprompt.
Qed.

Lemma analyze_paper_missing_key_witness :
  ArxivAnalyzerGemini.analyze_paper Demo.generate_content 1 "summary" None
    0.7%float DemoSearch.shelf
  = (Raise (KeyError "published"), DemoSearch.shelf)
  ∧ ArxivAnalyzer.analyze_paper Demo.messages_create 1 "summary" None
      DemoSearch.shelf
    = (Raise (KeyError "published"), DemoSearch.shelf).
Proof.
  apply (analyze_paper_missing_key Demo.generate_content Demo.messages_create
           DemoSearch.shelf 1 "summary" None 0.7%float
           ["title"; "authors"] "published" ["categories"; "summary"]).
  - reflexivity.
  - repeat constructor; by eexists.
  - reflexivity.
Defined.

(** *** The methods over several papers *)

Lemma join_infix (sep : string) (items : list string) : ∀ j x,
  items !! j = Some x → infix_of x (join sep items).
Proof.
  induction items as [|y rest IH]; intros j x Hj; [done|].
  destruct j as [|j]; simpl in Hj.
  - injection Hj as ->. destruct rest as [|z rest]; simpl.
    + exists EmptyString, EmptyString. by rewrite str_app_nil_r.
    + by exists EmptyString, (sep +:+ join sep (z :: rest)).
  - specialize (IH j x Hj). destruct rest as [|z rest]; [done|].
    change (join sep (y :: z :: rest)) with (y +:+ sep +:+ join sep (z :: rest)).
    by do 2 apply infix_of_app_r.
Qed.

Section MultiPaperFacts.

Context {World : Type}.
Implicit Types (s : state World) (p : ref) (papers : list ref).

Lemma question_blocks_ok papers : ∀ s,
  Forall (λ p, is_Some (deref s p !! "title") ∧ is_Some (deref s p !! "summary"))
    papers →
  question_blocks papers s
  = (Ok ((λ p, "Title: " +:+ str (deref s p !!! "title") +:+ nl
               +:+ "Abstract: " +:+ str (deref s p !!! "summary")) <$> papers), s).
Proof.
  induction papers as [|p rest IH]; intros s Hall; [done|].
  apply Forall_cons in Hall as [([t Ht] & [m Hm]) Hrest].
  cbn [question_blocks]. rewrite !bind_getitem, Ht, bind_getitem, Hm.
  unfold bind. rewrite IH by done.
  rewrite fmap_cons. cbv beta. by rewrite !lookup_total_alt, Ht, Hm.
Qed.

Lemma question_blocks_missing papers : ∀ s,
  Exists (λ p, deref s p !! "title" = None ∨ deref s p !! "summary" = None)
    papers →
  ∃ k, question_blocks papers s = (Raise (KeyError k), s)
    ∧ k ∈ ["title"; "summary"].
Proof.
  induction papers as [|p rest IH]; intros s Hex; [by apply Exists_nil in Hex|].
  cbn [question_blocks]. rewrite bind_getitem.
  destruct (deref s p !! "title") as [t|] eqn:Ht.
  2:{ exists "title". split; [done|set_solver]. }
  rewrite bind_getitem.
  destruct (deref s p !! "summary") as [m|] eqn:Hm.
  2:{ exists "summary". split; [done|set_solver]. }
  apply Exists_cons in Hex as [[?|?]|Hex]; [congruence..|].
  destruct (IH s Hex) as (k & Hk & Hin). exists k. split; [|done].
  unfold bind. by rewrite Hk.
Qed.

Lemma abstract_blocks_missing papers : ∀ s,
  Exists (λ p, deref s p !! "title" = None ∨ deref s p !! "summary" = None)
    papers →
  ∃ k, ArxivAnalyzerGemini.abstract_blocks papers s = (Raise (KeyError k), s)
    ∧ k ∈ ["title"; "summary"].
Proof.
  induction papers as [|p rest IH]; intros s Hex; [by apply Exists_nil in Hex|].
  cbn [ArxivAnalyzerGemini.abstract_blocks]. rewrite bind_getitem.
  destruct (deref s p !! "title") as [t|] eqn:Ht.
  2:{ exists "title". split; [done|set_solver]. }
  rewrite bind_getitem.
  destruct (deref s p !! "summary") as [m|] eqn:Hm.
  2:{ exists "summary". split; [done|set_solver]. }
  apply Exists_cons in Hex as [[?|?]|Hex]; [congruence..|].
  destruct (IH s Hex) as (k & Hk & Hin). exists k. split; [|done].
  unfold bind. by rewrite Hk.
Qed.

Lemma papers_text_loop_missing papers : ∀ i acc s,
  Exists (λ p, deref s p !! "title" = None ∨ deref s p !! "summary" = None)
    papers →
  ∃ k, papers_text_loop papers i acc s = (Raise (KeyError k), s)
    ∧ k ∈ ["title"; "authors"; "summary"].
Proof.
  induction papers as [|p rest IH]; intros i acc s Hex;
    [by apply Exists_nil in Hex|].
  cbn [papers_text_loop]. rewrite bind_getitem.
  destruct (deref s p !! "title") as [t|] eqn:Ht.
  2:{ exists "title". split; [done|set_solver]. }
  rewrite bind_getitem.
  destruct (deref s p !! "authors") as [a|] eqn:Ha.
  2:{ exists "authors". split; [done|set_solver]. }
  rewrite bind_getitem.
  destruct (deref s p !! "summary") as [m|] eqn:Hm.
  2:{ exists "summary". split; [done|set_solver]. }
  apply Exists_cons in Hex as [[?|?]|Hex]; [congruence..|].
  by apply IH.
Qed.

End MultiPaperFacts.

(** X13. [generate_research_questions] returns what the backend generates, as
    it is: for papers with a title and an abstract, none included, its
    outcome is the outcome of one backend call, without a generation
    configuration, on a prompt in which every paper occurs with its title
    and its abstract and which names the number of questions twice. *)
Theorem generate_research_questions_prompt {World : Type}
    (generate_content :
       string → option ArxivAnalyzerGemini.generation_config → World
       → result string * World)
    (papers : list ref) (num_questions : Z) (s : state World) :
  Forall (λ p, is_Some (deref s p !! "title") ∧ is_Some (deref s p !! "summary"))
    papers →
  ∃ prompt,
    generate_research_questions generate_content papers num_questions s
    = backend (generate_content prompt None) s
    ∧ (∀ j p title summary,
         papers !! j = Some p →
         deref s p !! "title" = Some title →
         deref s p !! "summary" = Some summary →
         infix_of ("Title: " +:+ str title +:+ nl +:+ "Abstract: " +:+ str summary)
           prompt)
    ∧ infix_of ("generate " +:+ str_int num_questions +:+ " interesting") prompt
    ∧ infix_of ("Generate " +:+ str_int num_questions +:+ " research questions:")
        prompt.
Proof.
  intros Hall. unfold generate_research_questions, bind.
  rewrite question_blocks_ok by done.
  eexists. split; [reflexivity|]. split_and!.
  - intros j p title summary Hj Ht Hm.
    do 3 apply infix_of_app_r. apply infix_of_app_l.
    eapply join_infix. rewrite list_lookup_fmap, Hj. simpl.
    by rewrite !lookup_total_alt, Ht, Hm.
  - eexists "Based on these research papers, ", _.
    rewrite !str_app_assoc. reflexivity.
  - do 4 apply infix_of_app_r.
    eexists "

", EmptyString. rewrite !str_app_assoc, str_app_nil_r. reflexivity.
Qed.

Lemma generate_research_questions_prompt_witness :
  generate_research_questions Demo.generate_content [] 5 Demo.start
  = (Ok "analysis #0", State (heap Demo.start) 1 (stdout Demo.start))
  ∧ generate_research_questions Demo.generate_content [2; 0] 5 Demo.second
    = (Raise (BackendError "quota exceeded"),
       State (heap Demo.second) 2 (stdout Demo.second)).
Proof.
  split.
  - destruct (generate_research_questions_prompt Demo.generate_content [] 5
                Demo.start) as (prompt & -> & _); [constructor|reflexivity].
  - destruct (generate_research_questions_prompt Demo.generate_content [2; 0] 5
                Demo.second) as (prompt & -> & _);
      [repeat constructor; by eexists|reflexivity].
Defined.

(** X14. A paper without title or abstract stops the methods over several
    papers before any backend call: [extract_key_concepts],
    [generate_research_questions] and, given 2 papers or more, both
    [compare_papers] raise a [KeyError] and leave the state as it was. *)
Theorem multi_paper_missing_key {World : Type}
    (generate_content :
       string → option ArxivAnalyzerGemini.generation_config → World
       → result string * World)
    (messages_create :
       string → Z → list ArxivAnalyzer.message_param → World
       → result (list string) * World)
    (papers : list ref) (temp : float) (max_concepts num_questions : Z)
    (s : state World) :
  Exists (λ p, deref s p !! "title" = None ∨ deref s p !! "summary" = None)
    papers →
  (∃ k, k ∈ ["title"; "summary"]
     ∧ ArxivAnalyzerGemini.extract_key_concepts generate_content papers
         max_concepts s = (Raise (KeyError k), s))
  ∧ (∃ k, k ∈ ["title"; "summary"]
       ∧ generate_research_questions generate_content papers num_questions s
         = (Raise (KeyError k), s))
  ∧ (2 ≤ length papers →
     ∃ k, k ∈ ["title"; "authors"; "summary"]
       ∧ ArxivAnalyzerGemini.compare_papers generate_content papers temp s
         = (Raise (KeyError k), s)
       ∧ ArxivAnalyzer.compare_papers messages_create papers s
         = (Raise (KeyError k), s)).
Proof.
  intros Hex. split_and!.
  - destruct (abstract_blocks_missing papers s Hex) as (k & Hk & Hin).
    exists k. split; [done|].
    unfold ArxivAnalyzerGemini.extract_key_concepts, bind. by rewrite Hk.
  - destruct (question_blocks_missing papers s Hex) as (k & Hk & Hin).
    exists k. split; [done|].
    unfold generate_research_questions, bind. by rewrite Hk.
  - intros Hlen.
    destruct (papers_text_loop_missing papers 1 EmptyString s Hex)
      as (k & Hk & Hin).
    exists k. split; [done|].
    assert (compare_prompt papers s = (Raise (KeyError k), s)) as Hprompt.
    { unfold compare_prompt. destruct (decide _); [lia|].
      unfold bind. by rewrite Hk. }
    unfold ArxivAnalyzerGemini.compare_papers, ArxivAnalyzer.compare_papers.
    unfold bind at 1 2. by rewrite Hprompt.
Qed.

Lemma multi_paper_missing_key_witness :
  ArxivAnalyzerGemini.extract_key_concepts Demo.generate_content [0; 1] 10
    DemoSearch.shelf = (Raise (KeyError "summary"), DemoSearch.shelf)
  ∧ ArxivAnalyzer.compare_papers Demo.messages_create [0; 1] DemoSearch.shelf
    = (Raise (KeyError "summary"), DemoSearch.shelf).
Proof.
  assert (Exists (λ p, deref DemoSearch.shelf p !! "title" = None
                       ∨ deref DemoSearch.shelf p !! "summary" = None) [0; 1])
    as Hex by (apply Exists_cons_tl, Exists_cons_hd; by right).
  destruct (multi_paper_missing_key Demo.generate_content Demo.messages_create
              [0; 1] 0.7%float 10 5 DemoSearch.shelf Hex)
    as ((k & _ & Hextract) & _ & Hcompare).
  destruct (Hcompare ltac:(simpl; lia)) as (k' & _ & _ & Hclaude).
  split.
  - rewrite Hextract. assert (Hc := Hextract). vm_compute in Hc.
    by injection Hc as <-.
  - rewrite Hclaude. assert (Hc := Hclaude). vm_compute in Hc.
    by injection Hc as <-.
Defined.

(** *** From a search to the analyses *)

Section SearchUse.

Context {World datetime : Type}.
Variable strftime : datetime → string → string.
Variable search_results :
  string → Z → Arxiv.SortCriterion → World
  → (list (Arxiv.Result datetime) * option exn) * World.
Implicit Types (s : state World) (results : list (Arxiv.Result datetime)).

Lemma search_papers_ok_inv query max_results sort_by s out s1 :
  search_papers strftime search_results query max_results sort_by s = (Ok out, s1) →
  ∃ results,
    search_results query max_results sort_by (world s) = ((results, None), world s1)
    ∧ out = seq (length (heap s)) (length results)
    ∧ heap s1 = heap s ++ (searched_paper strftime <$> results).
Proof.
  rewrite search_papers_run.
  destruct (search_results _ _ _ _) as [[results [e|]] w]; [done|].
  intros [= <- <-]. by exists results.
Qed.

Lemma searched_deref s s1 results j r :
  heap s1 = heap s ++ (searched_paper strftime <$> results) →
  results !! j = Some r →
  deref s1 (length (heap s) + j) = searched_paper strftime r.
Proof.
  intros Hheap Hj. unfold deref. rewrite Hheap.
  apply list_lookup_total_correct.
  rewrite lookup_app_r by lia.
  replace (length (heap s) + j - length (heap s)) with j by lia.
  by rewrite list_lookup_fmap, Hj.
Qed.

Lemma searched_paper_rendered r :
  Forall (λ k, is_Some (searched_paper strftime r !! k)) rendered_keys.
Proof. repeat constructor; by eexists. Qed.

Lemma search_papers_rendered query max_results sort_by s out s1 p :
  search_papers strftime search_results query max_results sort_by s = (Ok out, s1) →
  p ∈ out →
  Forall (λ k, is_Some (deref s1 p !! k)) rendered_keys.
Proof.
  intros Hrun Hp.
  apply search_papers_ok_inv in Hrun as (results & _ & -> & Hheap).
  apply list_elem_of_lookup in Hp as [j Hj].
  apply lookup_seq in Hj as [-> Hlt].
  destruct (lookup_lt_is_Some_2 results j Hlt) as [r Hr].
  rewrite (searched_deref s s1 results j r Hheap Hr).
  apply searched_paper_rendered.
Qed.

End SearchUse.



(** X3. A search that breaks off with an exception makes [search_papers] raise
    that exception: the papers made of the results that came before it are
    returned to no one. *)
Theorem search_papers_interrupted {World datetime : Type}
    (strftime : datetime → string → string)
    (search_results :
       string → Z → Arxiv.SortCriterion → World
       → (list (Arxiv.Result datetime) * option exn) * World)
    (query : string) (max_results : Z) (sort_by : Arxiv.SortCriterion)
    (s : state World) (results : list (Arxiv.Result datetime)) (e : exn)
    (w : World) :
  search_results query max_results sort_by (world s) = ((results, Some e), w) →
  ∃ s', search_papers strftime search_results query max_results sort_by s
        = (Raise e, s')
    ∧ world s' = w ∧ extends s s'
    ∧ length (heap s') = length (heap s) + length results.
Proof.
  intros Hsearch. rewrite search_papers_run, Hsearch.
  eexists. split; [reflexivity|]. simpl.
  split_and!; [done|by eexists|].
  by rewrite length_app, length_fmap.
Qed.

Lemma search_papers_interrupted_witness :
  ∃ s', search_papers DemoSearch.strftime
          (λ _ _ _ w, (([DemoSearch.result_a], Some (BackendError "timeout")), w))
          "transformers" 3 Arxiv.Relevance DemoSearch.empty
        = (Raise (BackendError "timeout"), s')
    ∧ world s' = 0 ∧ extends DemoSearch.empty s'
    ∧ length (heap s') = length (heap DemoSearch.empty) + 1.
Proof.
  apply (search_papers_interrupted DemoSearch.strftime
           (λ _ _ _ w, (([DemoSearch.result_a], Some (BackendError "timeout")), w))
           "transformers" 3 Arxiv.Relevance DemoSearch.empty
           [DemoSearch.result_a] (BackendError "timeout") 0).
  reflexivity.
Defined.

(** X4. Every paper that [search_papers] returns can be analysed: its prompt
    renders, so that [analyze_paper], of either class, raises no [KeyError]
    and its outcome is the outcome of the backend call on that prompt. *)
Theorem searched_paper_analysis {World datetime : Type}
    (strftime : datetime → string → string)
    (search_results :
       string → Z → Arxiv.SortCriterion → World
       → (list (Arxiv.Result datetime) * option exn) * World)
    (generate_content :
       string → option ArxivAnalyzerGemini.generation_config → World
       → result string * World)
    (messages_create :
       string → Z → list ArxivAnalyzer.message_param → World
       → result (list string) * World)
    (query : string) (max_results : Z) (sort_by : Arxiv.SortCriterion)
    (s s1 : state World) (out : list ref) (p : ref)
    (kind : string) (custom : option string) (temp : float) :
  search_papers strftime search_results query max_results sort_by s = (Ok out, s1) →
  p ∈ out →
  ∃ prompt, full_prompt p kind custom s1 = (Ok prompt, s1)
    ∧ ArxivAnalyzerGemini.analyze_paper generate_content p kind custom temp s1
      = backend (generate_content prompt
                   (Some (ArxivAnalyzerGemini.GenerationConfig
                            temp 0.95%float 40 2048))) s1
    ∧ ArxivAnalyzer.analyze_paper messages_create p kind custom s1
      = (let! message :=
           backend (messages_create "claude-sonnet-4-20250514" 2000%Z
                      [ArxivAnalyzer.MessageParam "user" prompt]) in
         ArxivAnalyzer.first_text message) s1.
Proof.
  intros Hrun Hp.
  pose proof (search_papers_rendered _ _ _ _ _ _ _ _ _ Hrun Hp) as Hkeys.
  destruct (full_prompt_ok p kind custom s1 Hkeys) as [prompt Hprompt].
  exists prompt. split_and!; [done| |].
  - rewrite gemini_analyze_paper_run, Hprompt. simpl. unfold backend.
    by destruct (generate_content _ _ _).
  - unfold ArxivAnalyzer.analyze_paper. unfold bind at 1. by rewrite Hprompt.
Qed.

Lemma searched_paper_analysis_witness :
  ∃ prompt s1,
    full_prompt 1 "methodology" None s1 = (Ok prompt, s1)
    ∧ ArxivAnalyzerGemini.analyze_paper Demo.generate_content 1 "methodology"
        None 0.7%float s1
      = backend (Demo.generate_content prompt
                   (Some (ArxivAnalyzerGemini.GenerationConfig
                            0.7%float 0.95%float 40 2048))) s1.
Proof.
  destruct (search_papers DemoSearch.strftime DemoSearch.search_results
              "transformers" 3 Arxiv.Relevance DemoSearch.empty)
    as [[out|e] s1] eqn:Hrun; [|by vm_compute in Hrun].
  destruct (searched_paper_analysis DemoSearch.strftime
              DemoSearch.search_results Demo.generate_content
              Demo.messages_create "transformers" 3 Arxiv.Relevance
              DemoSearch.empty s1 out 1 "methodology" None 0.7%float Hrun)
    as (prompt & Hprompt & Hgemini & _).
  - vm_compute in Hrun. injection Hrun as <- _. set_solver.
  - by exists prompt, s1.
Defined.

(** X5. The batch of [ArxivAnalyzerGemini] over what [search_papers] returns
    always comes back with its list, whatever the backend does: one entry
    per paper found, in order, each with an analysis field and otherwise
    the items of its paper. *)
Theorem search_then_batch {World datetime : Type}
    (strftime : datetime → string → string)
    (search_results :
       string → Z → Arxiv.SortCriterion → World
       → (list (Arxiv.Result datetime) * option exn) * World)
    (generate_content :
       string → option ArxivAnalyzerGemini.generation_config → World
       → result string * World)
    (query : string) (max_results : Z) (sort_by : Arxiv.SortCriterion)
    (s s1 : state World) (out : list ref) (kind : string) (temp : float) :
  search_papers strftime search_results query max_results sort_by s = (Ok out, s1) →
  ∃ analyzed s2,
    ArxivAnalyzerGemini.batch_analyze_papers generate_content out kind temp s1
    = (Ok analyzed, s2)
    ∧ length analyzed = length out
    ∧ ∀ j p, out !! j = Some p →
        ∃ r text, analyzed !! j = Some r
          ∧ deref s2 r !! "analysis" = Some (VStr text)
          ∧ ∀ key, key ≠ "analysis" → deref s2 r !! key = deref s1 p !! key.
Proof.
  intros Hrun. apply gemini_batch_one_entry_per_paper.
  apply Forall_forall. intros p Hp.
  pose proof (search_papers_rendered _ _ _ _ _ _ _ _ _ Hrun Hp) as Hkeys.
  by apply Forall_cons in Hkeys as [Ht _].
Qed.

Lemma search_then_batch_witness :
  ∃ s1 analyzed s2,
    ArxivAnalyzerGemini.batch_analyze_papers Demo.generate_content [0; 1]
      "summary" 0.7%float s1 = (Ok analyzed, s2)
    ∧ length analyzed = 2.
Proof.
  destruct (search_papers DemoSearch.strftime DemoSearch.search_results
              "transformers" 3 Arxiv.Relevance DemoSearch.empty)
    as [[out|e] s1] eqn:Hrun; [|by vm_compute in Hrun].
  destruct (search_then_batch DemoSearch.strftime DemoSearch.search_results
              Demo.generate_content "transformers" 3 Arxiv.Relevance
              DemoSearch.empty s1 out "summary" 0.7%float Hrun)
    as (analyzed & s2 & Hbatch & Hlen & _).
  assert (out = [0; 1]) as -> by (vm_compute in Hrun; by injection Hrun as <- _).
  by exists s1, analyzed, s2.
Defined.

(** X6. On what [search_papers] returns, the methods over several papers raise
    no [KeyError]: [extract_key_concepts] and [generate_research_questions]
    have the outcome of their backend call, and so have both
    [compare_papers] when 2 papers or more were found. *)
Theorem search_then_multi_paper {World datetime : Type}
    (strftime : datetime → string → string)
    (search_results :
       string → Z → Arxiv.SortCriterion → World
       → (list (Arxiv.Result datetime) * option exn) * World)
    (generate_content :
       string → option ArxivAnalyzerGemini.generation_config → World
       → result string * World)
    (messages_create :
       string → Z → list ArxivAnalyzer.message_param → World
       → result (list string) * World)
    (query : string) (max_results : Z) (sort_by : Arxiv.SortCriterion)
    (s s1 : state World) (out : list ref) (temp : float)
    (max_concepts num_questions : Z) :
  search_papers strftime search_results query max_results sort_by s = (Ok out, s1) →
  (∃ prompt,
     ArxivAnalyzerGemini.extract_key_concepts generate_content out max_concepts s1
     = backend (generate_content prompt None) s1)
  ∧ (∃ prompt,
       generate_research_questions generate_content out num_questions s1
       = backend (generate_content prompt None) s1)
  ∧ (2 ≤ length out →
     ∃ prompt,
       ArxivAnalyzerGemini.compare_papers generate_content out temp s1
       = backend (generate_content prompt
                    (Some (ArxivAnalyzerGemini.GenerationConfig
                             temp 0.95%float 40 3072))) s1
       ∧ ArxivAnalyzer.compare_papers messages_create out s1
         = (let! message :=
              backend (messages_create "claude-sonnet-4-20250514" 3000%Z
                         [ArxivAnalyzer.MessageParam "user" prompt]) in
            ArxivAnalyzer.first_text message) s1).
Proof.
  intros Hrun.
  assert (∀ p k, p ∈ out → k ∈ rendered_keys → is_Some (deref s1 p !! k))
    as Hkey.
  { intros p k Hp Hk.
    pose proof (search_papers_rendered _ _ _ _ _ _ _ _ _ Hrun Hp) as Hkeys.
    by eapply Forall_forall in Hkeys. }
  assert (Forall (λ p, is_Some (deref s1 p !! "title")
                       ∧ is_Some (deref s1 p !! "summary")) out) as Hblocks.
  { apply Forall_forall. intros p Hp.
    split; apply Hkey; try done; unfold rendered_keys; set_solver. }
  split_and!.
  - unfold ArxivAnalyzerGemini.extract_key_concepts, bind.
    rewrite abstract_blocks_ok by done. by eexists.
  - unfold generate_research_questions, bind.
    rewrite question_blocks_ok by done. by eexists.
  - intros Hlen.
    assert (Forall (comparable s1) out) as Hcmp.
    { apply Forall_forall. intros p Hp.
      split_and!; apply Hkey; try done; unfold rendered_keys; set_solver. }
    eexists. split.
    + unfold ArxivAnalyzerGemini.compare_papers, bind.
      by rewrite compare_prompt_long by done.
    + unfold ArxivAnalyzer.compare_papers. unfold bind at 1.
      by rewrite compare_prompt_long by done.
Qed.

Lemma search_then_multi_paper_witness :
  ∃ s1 prompt,
    ArxivAnalyzer.compare_papers Demo.messages_create [0; 1] s1
    = (let! message :=
         backend (Demo.messages_create "claude-sonnet-4-20250514" 3000%Z
                    [ArxivAnalyzer.MessageParam "user" prompt]) in
       ArxivAnalyzer.first_text message) s1.
Proof.
  destruct (search_papers DemoSearch.strftime DemoSearch.search_results
              "transformers" 3 Arxiv.Relevance DemoSearch.empty)
    as [[out|e] s1] eqn:Hrun; [|by vm_compute in Hrun].
  destruct (search_then_multi_paper DemoSearch.strftime
              DemoSearch.search_results Demo.generate_content
              Demo.messages_create "transformers" 3 Arxiv.Relevance
              DemoSearch.empty s1 out 0.7%float 10 5 Hrun)
    as (_ & _ & Hcompare).
  assert (out = [0; 1]) as -> by (vm_compute in Hrun; by injection Hrun as <- _).
  destruct (Hcompare ltac:(simpl; lia)) as (prompt & _ & Hclaude).
  by exists s1, prompt.
Defined.

(** *** More on the batches *)

Section GeminiLog.

Context {World : Type}.
Variable generate_content :
  string → option ArxivAnalyzerGemini.generation_config → World
  → result string * World.
Implicit Types (s : state World) (p : ref) (papers : list ref).

#[local] Abbreviation analyze := (ArxivAnalyzerGemini.analyze_paper generate_content).
#[local] Abbreviation loop := (ArxivAnalyzerGemini.batch_loop generate_content).

Lemma gemini_batch_loop_app l1 : ∀ l2 i total k t acc s,
  loop (l1 ++ l2) i total k t acc s
  = match loop l1 i total k t acc s with
    | (Ok acc', s1) => loop l2 (i + length l1) total k t acc' s1
    | (Raise e, s1) => (Raise e, s1)
    end.
Proof.
  induction l1 as [|p rest IH]; intros l2 i total k t acc s.
  - simpl. by rewrite Nat.add_0_r.
  - rewrite <-app_comm_cons.
    destruct (deref s p !! "title") as [title|] eqn:Ht.
    + rewrite !gemini_batch_loop_cons by eauto. rewrite IH.
      simpl length. by replace (i + S (length rest)) with (S i + length rest) by lia.
    + by rewrite !gemini_batch_loop_no_title.
Qed.

Lemma gemini_batch_loop_stdout papers : ∀ i total k t acc s,
  stdout s `prefix_of` stdout (snd (loop papers i total k t acc s)).
Proof.
  induction papers as [|p rest IH]; intros i total k t acc s; [done|].
  destruct (deref s p !! "title") as [title|] eqn:Ht.
  - rewrite gemini_batch_loop_cons by eauto.
    etrans; [|apply IH]. unfold after_item. simpl.
    rewrite <-app_assoc. by apply prefix_app_r.
  - by rewrite gemini_batch_loop_no_title.
Qed.

End GeminiLog.

(** X9. The batch of [ArxivAnalyzerGemini] tells what it does: for every paper
    its progress line is printed, with the number of the paper and the
    first 60 characters of the title, and for a paper whose analysis raises
    the line [Error analyzing paper: ] with [str] of the exception is
    printed too; nothing printed before is lost. *)
Theorem gemini_batch_reports {World : Type}
    (generate_content :
       string → option ArxivAnalyzerGemini.generation_config → World
       → result string * World)
    (papers : list ref) (kind : string) (temp : float) (s : state World)
    (j : nat) (p : ref) (title : value) :
  Forall (λ p, is_Some (deref s p !! "title")) papers →
  papers !! j = Some p →
  deref s p !! "title" = Some title →
  let s' := snd (ArxivAnalyzerGemini.batch_analyze_papers generate_content
                   papers kind temp s) in
  stdout s `prefix_of` stdout s'
  ∧ progress_line (S j) (length papers) title ∈ stdout s'
  ∧ ∀ e,
      fst (ArxivAnalyzerGemini.analyze_paper generate_content p kind None temp
             (snd (ArxivAnalyzerGemini.batch_loop generate_content
                     (take j papers) 1 (length papers) kind temp [] s)))
      = Raise e →
      ("Error analyzing paper: " +:+ exn_str e) ∈ stdout s'.
Proof.
  intros Hall Hj Ht s'. subst s'.
  unfold ArxivAnalyzerGemini.batch_analyze_papers.
  split; [apply gemini_batch_loop_stdout|].
  pose proof (lookup_lt_Some _ _ _ Hj) as Hlt.
  assert (Forall (λ p, p < length (heap s)) papers) as Hvalid.
  { eapply Forall_impl; [exact Hall|]. intros q Hq.
    exact (has_key_valid s q "title" Hq). }
  destruct (gemini_batch_loop_total generate_content (take j papers) 1
              (length papers) kind temp [] s) as (acc & sj & Hrun).
  { by apply Forall_take. }
  rewrite Hrun. simpl snd.
  pose proof Hrun as Hinv.
  apply gemini_batch_loop_inv in Hinv as [Hext _]; [|by apply Forall_take].
  assert (deref sj p = deref s p) as Hd.
  { apply extends_deref; [done|]. by eapply Forall_lookup_1 in Hvalid. }
  set (n := length papers) in *.
  set (sa := after_item generate_content (1 + j) n kind temp p sj).
  assert (ArxivAnalyzerGemini.batch_loop generate_content papers 1 n kind temp [] s
          = ArxivAnalyzerGemini.batch_loop generate_content (drop (S j) papers)
              (S (1 + j)) n kind temp (acc ++ [length (heap sj)]) sa) as Heq.
  { rewrite <-(take_drop_middle papers j p Hj) at 1.
    rewrite gemini_batch_loop_app, Hrun.
    rewrite gemini_batch_loop_cons by (rewrite Hd; eauto).
    by rewrite length_take, Nat.min_l by (subst n; lia). }
  rewrite Heq.
  pose proof (gemini_batch_loop_stdout generate_content (drop (S j) papers)
                (S (1 + j)) n kind temp (acc ++ [length (heap sj)]) sa) as Hpre.
  assert (progress_line (S j) n title ∈ stdout sa) as Hline.
  { subst sa. unfold after_item. simpl.
    rewrite Hd, lookup_total_alt, Ht. simpl. set_solver. }
  split.
  - destruct Hpre as [more ->]. set_solver.
  - intros e He.
    assert (("Error analyzing paper: " +:+ exn_str e) ∈ stdout sa) as Herr.
    { subst sa. unfold after_item. simpl.
      rewrite gemini_analyze_paper_item in He. simpl in He. rewrite He.
      set_solver. }
    destruct Hpre as [more ->]. set_solver.
Qed.

Lemma gemini_batch_reports_witness :
  progress_line 2 3 (VStr "Deep Residual Learning")
    ∈ stdout (snd (ArxivAnalyzerGemini.batch_analyze_papers
                     Demo.generate_content [0; 1; 2] "summary" 0.7%float
                     Demo.start))
  ∧ "Error analyzing paper: quota exceeded"
    ∈ stdout (snd (ArxivAnalyzerGemini.batch_analyze_papers
                     Demo.generate_content [0; 1; 2] "summary" 0.7%float
                     Demo.start)).
Proof.
  destruct (gemini_batch_reports Demo.generate_content [0; 1; 2] "summary"
              0.7%float Demo.start 1 1 (VStr "Deep Residual Learning"))
    as (_ & Hline & Herr).
  - repeat constructor; by eexists.
  - reflexivity.
  - reflexivity.
  - split; [exact Hline|].
    apply (Herr (BackendError "quota exceeded")). vm_compute. reflexivity.
Defined.

(** X10. In both classes the entries a batch returns are pairwise distinct
    objects, and none of them is one of the papers handed in, even when a
    paper occurs more than once in the input. *)
Theorem batch_entries_distinct {World : Type}
    (generate_content :
       string → option ArxivAnalyzerGemini.generation_config → World
       → result string * World)
    (messages_create :
       string → Z → list ArxivAnalyzer.message_param → World
       → result (list string) * World)
    (papers : list ref) (kind : string) (temp : float) (s : state World)
    (out : list ref) (s' : state World) :
  Forall (λ p, p < length (heap s)) papers →
  ArxivAnalyzerGemini.batch_analyze_papers generate_content papers kind temp s
    = (Ok out, s')
  ∨ ArxivAnalyzer.batch_analyze_papers messages_create papers kind s
    = (Ok out, s') →
  NoDup out ∧ ∀ r, r ∈ out → r ∉ papers.
Proof.
  intros Hvalid Hrun.
  assert (out = seq (length (heap s)) (length papers)) as ->.
  { destruct Hrun as [Hrun|Hrun].
    - apply gemini_batch_loop_inv in Hrun as [_ Hout]; [|done].
      by destruct (Hout _ eq_refl) as (-> & _).
    - apply claude_batch_loop_inv in Hrun as [_ Hout]; [|done].
      by destruct (Hout _ eq_refl) as (-> & _). }
  split; [apply NoDup_seq|].
  intros r Hr Hin. apply elem_of_seq in Hr as [Hge _].
  eapply Forall_forall in Hvalid; [|exact Hin]. simpl in Hvalid. lia.
Qed.

Lemma batch_entries_distinct_witness :
  NoDup [3; 4; 5] ∧ ∀ r, r ∈ [3; 4; 5] → r ∉ [1; 1; 0].
Proof.
  apply (batch_entries_distinct Demo.generate_content Demo.messages_create
           [1; 1; 0] "summary" 0.7%float Demo.start [3; 4; 5]
           (snd (ArxivAnalyzerGemini.batch_analyze_papers Demo.generate_content
                   [1; 1; 0] "summary" 0.7%float Demo.start))).
  - repeat constructor; simpl; lia.
  - left. vm_compute. reflexivity.
Defined.

Section ClaudeRun.

Context {World : Type}.
Variable messages_create :
  string → Z → list ArxivAnalyzer.message_param → World
  → result (list string) * World.
Implicit Types (s : state World) (p : ref) (papers : list ref).

#[local] Abbreviation analyze := (ArxivAnalyzer.analyze_paper messages_create).
#[local] Abbreviation loop := (ArxivAnalyzer.batch_loop messages_create).

Lemma claude_analyze_paper_run p k c s :
  analyze p k c s
  = match fst (full_prompt p k c s) with
    | Ok prompt =>
        let '(r, w) :=
          messages_create "claude-sonnet-4-20250514" 2000%Z
            [ArxivAnalyzer.MessageParam "user" prompt] (world s) in
        (match r with
         | Ok (block :: _) => Ok block
         | Ok [] => Raise (IndexError "list index out of range")
         | Raise e => Raise e
         end, State (heap s) w (stdout s))
    | Raise e => (Raise e, s)
    end.
Proof.
  unfold ArxivAnalyzer.analyze_paper. unfold bind at 1.
  pose proof (full_prompt_state p k c s) as Hs.
  destruct (full_prompt p k c s) as [[prompt|e] s1]; simpl in *; subst; [|done].
  unfold bind, backend.
  by destruct (messages_create _ _ _ _) as [[[|b bs]|e] w].
Qed.

Lemma claude_analyze_paper_stdout p k c s s0 :
  heap s0 = heap s → world s0 = world s →
  fst (analyze p k c s0) = fst (analyze p k c s)
  ∧ world (snd (analyze p k c s0)) = world (snd (analyze p k c s))
  ∧ heap (snd (analyze p k c s0)) = heap s.
Proof.
  intros Hh Hw. rewrite !claude_analyze_paper_run.
  rewrite (full_prompt_fst p p k c s0 s) by (unfold deref; by rewrite Hh).
  rewrite Hw, Hh.
  destruct (fst (full_prompt p k c s)) as [prompt|e]; [|done].
  by destruct (messages_create _ _ _ _) as [r w].
Qed.

Lemma claude_batch_loop_cons p rest k acc s :
  loop (p :: rest) k acc s
  = match deref s p !! "title" with
    | None => (Raise (KeyError "title"), s)
    | Some title =>
        match analyze p k None
                (State (heap s) (world s)
                   (stdout s ++ ["Analyzing: " +:+ str (slice_to 60 title)
                                 +:+ "..."])) with
        | (Ok text, s1) =>
            loop rest k (acc ++ [length (heap s1)])
              (State (heap s1 ++ [<["analysis" := VStr text]> (deref s1 p)])
                 (world s1) (stdout s1))
        | (Raise e, s1) => (Raise e, s1)
        end
    end.
Proof.
  cbn [ArxivAnalyzer.batch_loop]. rewrite bind_getitem.
  destruct (deref s p !! "title") as [title|]; [|done].
  unfold bind at 1, print. cbv beta iota. unfold bind at 1.
  destruct (analyze p k None _) as [[text|e] s1]; [|done].
  by rewrite copy_setitem_then.
Qed.

Lemma claude_batch_loop_app l1 : ∀ l2 k acc s,
  loop (l1 ++ l2) k acc s
  = match loop l1 k acc s with
    | (Ok acc', s1) => loop l2 k acc' s1
    | (Raise e, s1) => (Raise e, s1)
    end.
Proof.
  induction l1 as [|p rest IH]; intros l2 k acc s; [done|].
  rewrite <-app_comm_cons, !claude_batch_loop_cons.
  destruct (deref s p !! "title") as [title|]; [|done].
  destruct (analyze p k None _) as [[text|e] s1]; [|done].
  apply IH.
Qed.

End ClaudeRun.

(** X12. [analyze_paper] of [ArxivAnalyzer] returns the text of the first
    content block of the message and nothing of the others; a message with
    no content block makes it raise [IndexError], after the call. *)
Theorem claude_analyze_paper_first_block {World : Type}
    (messages_create :
       string → Z → list ArxivAnalyzer.message_param → World
       → result (list string) * World)
    (p : ref) (kind : string) (custom : option string) (s : state World)
    (prompt : string) (blocks : list string) (w : World) :
  fst (full_prompt p kind custom s) = Ok prompt →
  messages_create "claude-sonnet-4-20250514" 2000%Z
    [ArxivAnalyzer.MessageParam "user" prompt] (world s) = (Ok blocks, w) →
  ArxivAnalyzer.analyze_paper messages_create p kind custom s
  = (match blocks with
     | block :: _ => Ok block
     | [] => Raise (IndexError "list index out of range")
     end, State (heap s) w (stdout s)).
Proof.
  intros Hprompt Hcall.
  by rewrite claude_analyze_paper_run, Hprompt, Hcall.
Qed.

Lemma claude_analyze_paper_first_block_witness :
  ArxivAnalyzer.analyze_paper (λ _ _ _ w, (Ok ["first"; "second"], S w)) 0
    "summary" None Demo.start
  = (Ok "first", State (heap Demo.start) 1 (stdout Demo.start))
  ∧ ArxivAnalyzer.analyze_paper (λ _ _ _ w, (Ok [], S w)) 0 "summary" None
      Demo.start
    = (Raise (IndexError "list index out of range"),
       State (heap Demo.start) 1 (stdout Demo.start)).
Proof.
  split.
  - eapply (claude_analyze_paper_first_block
              (λ _ _ _ w, (Ok ["first"; "second"], S w)) 0 "summary" None
              Demo.start _ ["first"; "second"] 1); reflexivity.
  - eapply (claude_analyze_paper_first_block
              (λ _ _ _ w, (Ok [], S w)) 0 "summary" None
              Demo.start _ [] 1); reflexivity.
Defined.

(** X11. The batch of [ArxivAnalyzer] stops at the first paper whose analysis
    raises: when the papers before paper [j] went through and the analysis
    of paper [j] raises, the batch raises that exception, and the backend
    is in the state that analysis left it in, so that no later paper
    reached it. *)
Theorem claude_batch_first_failure {World : Type}
    (messages_create :
       string → Z → list ArxivAnalyzer.message_param → World
       → result (list string) * World)
    (papers : list ref) (kind : string) (s : state World)
    (j : nat) (p : ref) (acc : list ref) (sj : state World) (e : exn) :
  papers !! j = Some p →
  ArxivAnalyzer.batch_loop messages_create (take j papers) kind [] s
  = (Ok acc, sj) →
  is_Some (deref sj p !! "title") →
  fst (ArxivAnalyzer.analyze_paper messages_create p kind None sj) = Raise e →
  fst (ArxivAnalyzer.batch_analyze_papers messages_create papers kind s)
  = Raise e
  ∧ world (snd (ArxivAnalyzer.batch_analyze_papers messages_create papers
                  kind s))
    = world (snd (ArxivAnalyzer.analyze_paper messages_create p kind None sj))
  ∧ heap (snd (ArxivAnalyzer.batch_analyze_papers messages_create papers
                 kind s))
    = heap sj.
Proof.
  intros Hj Hrun [title Ht] He.
  unfold ArxivAnalyzer.batch_analyze_papers.
  rewrite <-(take_drop_middle papers j p Hj) at 1 2 3.
  rewrite claude_batch_loop_app, Hrun, claude_batch_loop_cons, Ht.
  match goal with |- context [ArxivAnalyzer.analyze_paper _ p kind None ?s0] =>
    destruct (claude_analyze_paper_stdout messages_create p kind None sj s0
                eq_refl eq_refl) as (Hfst & Hworld & Hheap);
    destruct (ArxivAnalyzer.analyze_paper messages_create p kind None s0)
      as [[text|e'] s1] eqn:Hrun0
  end; simpl in Hfst, Hworld, Hheap.
  - congruence.
  - simpl. split_and!; [congruence|done..].
Qed.

Lemma claude_batch_first_failure_witness :
  fst (ArxivAnalyzer.batch_analyze_papers Demo.messages_create [2; 0; 1]
         "critique" Demo.start)
  = Raise (BackendError "quota exceeded")
  ∧ world (snd (ArxivAnalyzer.batch_analyze_papers Demo.messages_create
                  [2; 0; 1] "critique" Demo.start)) = 2.
Proof.
  destruct (ArxivAnalyzer.batch_loop Demo.messages_create (take 1 [2; 0; 1])
              "critique" [] Demo.start) as [[acc|e] sj] eqn:Hrun;
    [|by vm_compute in Hrun].
  destruct (claude_batch_first_failure Demo.messages_create [2; 0; 1]
              "critique" Demo.start 1 0 acc sj (BackendError "quota exceeded")
              eq_refl Hrun) as (Hfst & Hworld & _).
  - vm_compute in Hrun. injection Hrun as _ <-. by eexists.
  - vm_compute in Hrun. injection Hrun as _ <-. reflexivity.
  - split; [done|]. rewrite Hworld.
    vm_compute in Hrun. injection Hrun as _ <-. reflexivity.
Defined.

(** *** The constructors *)

(** X15. Both constructors settle the key the same way: the key passed in when
    it is a non-empty string, else the one of the environment when that is
    a non-empty string; with neither they raise their [ValueError] and
    nothing has been configured, the empty string counting as no key. *)
Theorem constructors_resolve_key {World Model Client : Type}
    (getenv : string → World → option string)
    (configure : string → World → result unit * World)
    (GenerativeModel : string → World → result Model * World)
    (Anthropic : string → World → result Client * World)
    (api_key : option string) (s : state World) :
  gemini_init getenv configure GenerativeModel api_key s
  = match usable_key api_key,
          usable_key (getenv "GOOGLE_API_KEY" (world s)) with
    | Some key, _ | None, Some key =>
        (let! _ := backend (configure key) in
         let! model := backend (GenerativeModel "gemini-1.5-pro") in
         ret (key, model)) s
    | None, None =>
        (Raise (ValueError "GOOGLE_API_KEY must be set in environment or passed to constructor"), s)
    end
  ∧ claude_init getenv Anthropic api_key s
    = match usable_key api_key,
            usable_key (getenv "ANTHROPIC_API_KEY" (world s)) with
      | Some key, _ | None, Some key =>
          (let! client := backend (Anthropic key) in ret (key, client)) s
      | None, None =>
          (Raise (ValueError "ANTHROPIC_API_KEY must be set in environment or passed to constructor"), s)
      end.
Proof.
  assert (∀ name A (rest : option string → M World A),
      (let! key := or_option api_key
                     (backend (λ w, (Ok (getenv name w), w))) in rest key) s
      = match usable_key api_key with
        | Some key => rest (Some key) s
        | None => rest (getenv name (world s)) s
        end) as Hor.
  { intros name A rest. unfold bind, or_option, usable_key, backend.
    destruct api_key as [c|]; [destruct (decide (c = EmptyString))|];
      simpl; by destruct s. }
  split.
  - unfold gemini_init. rewrite (Hor "GOOGLE_API_KEY").
    destruct (usable_key api_key) as [key|] eqn:Hkey.
    + unfold usable_key in Hkey. destruct api_key as [c|]; [|done].
      destruct (decide (c = EmptyString)); [done|]. injection Hkey as ->.
      unfold bind at 1, require_key. by destruct (decide (key = EmptyString)).
    + unfold bind at 1, require_key, usable_key.
      destruct (getenv _ _) as [c|]; [|done].
      by destruct (decide (c = EmptyString)).
  - unfold claude_init. rewrite (Hor "ANTHROPIC_API_KEY").
    destruct (usable_key api_key) as [key|] eqn:Hkey.
    + unfold usable_key in Hkey. destruct api_key as [c|]; [|done].
      destruct (decide (c = EmptyString)); [done|]. injection Hkey as ->.
      unfold bind at 1, require_key. by destruct (decide (key = EmptyString)).
    + unfold bind at 1, require_key, usable_key.
      destruct (getenv _ _) as [c|]; [|done].
      by destruct (decide (c = EmptyString)).
Qed.

(** *** Two more edges *)

(** X16. The prompt of [extract_key_concepts] names the number of concepts asked
    for and holds, for every paper, its title and its abstract. *)
Theorem extract_key_concepts_prompt {World : Type}
    (generate_content :
       string → option ArxivAnalyzerGemini.generation_config → World
       → result string * World)
    (papers : list ref) (max_concepts : Z) (s : state World) :
  Forall (λ p, is_Some (deref s p !! "title") ∧ is_Some (deref s p !! "summary"))
    papers →
  ∃ prompt,
    ArxivAnalyzerGemini.extract_key_concepts generate_content papers
      max_concepts s
    = backend (generate_content prompt None) s
    ∧ infix_of ("extract the " +:+ str_int max_concepts +:+ " most important")
        prompt
    ∧ ∀ j p title summary,
        papers !! j = Some p →
        deref s p !! "title" = Some title →
        deref s p !! "summary" = Some summary →
        infix_of ("Paper: " +:+ str title +:+ nl +:+ str summary) prompt.
Proof.
  intros Hall. unfold ArxivAnalyzerGemini.extract_key_concepts, bind.
  rewrite abstract_blocks_ok by done.
  eexists. split; [reflexivity|]. split.
  - eexists "Analyze these research paper abstracts and ", _.
    rewrite !str_app_assoc. reflexivity.
  - intros j p title summary Hj Ht Hm.
    do 3 apply infix_of_app_r. apply infix_of_app_l.
    eapply join_infix. rewrite list_lookup_fmap, Hj. simpl.
    by rewrite !lookup_total_alt, Ht, Hm.
Qed.

Lemma extract_key_concepts_prompt_witness :
  ∃ prompt,
    ArxivAnalyzerGemini.extract_key_concepts Demo.generate_content [0; 2] 7
      Demo.start
    = backend (Demo.generate_content prompt None) Demo.start
    ∧ infix_of "extract the 7 most important" prompt
    ∧ infix_of ("Paper: Adam" +:+ nl +:+ "We introduce Adam.") prompt.
Proof.
  destruct (extract_key_concepts_prompt Demo.generate_content [0; 2] 7
              Demo.start) as (prompt & Hrun & Hcount & Hblocks).
  - repeat constructor; by eexists.
  - exists prompt. split_and!; [done..|].
    by apply (Hblocks 1 2 (VStr "Adam") (VStr "We introduce Adam.")).
Defined.

(** X17. The batch of [ArxivAnalyzerGemini] reads the title for its progress
    line before it enters the [try]: a paper without a title, the first of
    its kind among the papers, makes the whole batch raise
    [KeyError('title')]; the entries made for the papers before it are
    returned to no one. *)
Theorem gemini_batch_title_escapes {World : Type}
    (generate_content :
       string → option ArxivAnalyzerGemini.generation_config → World
       → result string * World)
    (papers : list ref) (kind : string) (temp : float) (s : state World)
    (j : nat) (p : ref) :
  Forall (λ q, is_Some (deref s q !! "title")) (take j papers) →
  papers !! j = Some p →
  p < length (heap s) →
  deref s p !! "title" = None →
  fst (ArxivAnalyzerGemini.batch_analyze_papers generate_content papers kind
         temp s) = Raise (KeyError "title")
  ∧ length (heap (snd (ArxivAnalyzerGemini.batch_analyze_papers
                         generate_content papers kind temp s)))
    = length (heap s) + j.
Proof.
  intros Hall Hj Hp Ht.
  pose proof (lookup_lt_Some _ _ _ Hj) as Hlt.
  unfold ArxivAnalyzerGemini.batch_analyze_papers.
  set (n := length papers) in *.
  destruct (gemini_batch_loop_total generate_content (take j papers) 1 n kind
              temp [] s Hall) as (acc & sj & Hrun).
  pose proof Hrun as Hinv.
  apply gemini_batch_loop_inv in Hinv as [Hext Hout].
  2:{ eapply Forall_impl; [exact Hall|]. intros q Hq.
      exact (has_key_valid s q "title" Hq). }
  destruct (Hout acc eq_refl) as (_ & Hlen & _).
  rewrite length_take, Nat.min_l in Hlen by (subst n; lia).
  rewrite <-(take_drop_middle papers j p Hj) at 1 2.
  rewrite gemini_batch_loop_app, Hrun.
  rewrite gemini_batch_loop_no_title by (by rewrite (extends_deref s sj)).
  done.
Qed.

Lemma gemini_batch_title_escapes_witness :
  fst (ArxivAnalyzerGemini.batch_analyze_papers Demo.generate_content
         [0; 1; 2] "summary" 0.7%float
         (State [Demo.paper_a; Demo.paper_b; delete "title" Demo.paper_c] 0 []))
  = Raise (KeyError "title")
  ∧ length (heap (snd (ArxivAnalyzerGemini.batch_analyze_papers
                         Demo.generate_content [0; 1; 2] "summary" 0.7%float
                         (State [Demo.paper_a; Demo.paper_b;
                                 delete "title" Demo.paper_c] 0 []))))
    = 3 + 2.
Proof.
  apply (gemini_batch_title_escapes Demo.generate_content [0; 1; 2] "summary"
           0.7%float
           (State [Demo.paper_a; Demo.paper_b; delete "title" Demo.paper_c] 0 [])
           2 2).
  - repeat constructor; by eexists.
  - reflexivity.
  - simpl. lia.
  - reflexivity.
Defined.
